(** * The TimescaleDB -> Parquet -> S3 pipeline of [dags/timescale_to_s3_pipeline.py]

    A shallow embedding of the four task callables ([extract_timescale_data],
    [convert_csv_to_parquet], [upload_to_s3], [notify_completion]), of the SQL
    query the first one submits, and of the way the DAG chains and retries them
    ([default_args], [extract_task >> convert_task >> upload_task >> notify_task]),
    followed by the properties proved about them. *)

From Stdlib Require Import ZArith QArith Ascii String List Lia Bool Sorted Permutation.
From stdpp Require Import base option gmap strings.

Local Open Scope string_scope.
Local Open Scope Z_scope.

(** ** Python string primitives used by the tasks *)

Module PyStr.

(** [s[a:b]] for non-negative literal bounds: out-of-range bounds are clamped,
    never an error. *)
Definition slice (a b : nat) (s : string) : string :=
  String.substring a (b - a) s.

(** [s[:b]]. *)
Definition slice_to (b : nat) (s : string) : string := slice 0 b s.

(** [s.replace(old, new)] for a non-empty [old]: leftmost occurrences, not
    overlapping, all of them.  [skip] counts the characters of a matched
    occurrence that are still to be dropped. *)
Fixpoint replace_go (old new : string) (skip : nat) (s : string) : string :=
  match s with
  | EmptyString => EmptyString
  | String c s' =>
      match skip with
      | S k => replace_go old new k s'
      | O =>
          if String.prefix old s
          then new ++ replace_go old new (Nat.pred (String.length old)) s'
          else String c (replace_go old new O s')
      end
  end.

(** With the empty [old], Python puts [new] before every character and at
    the end. *)
Fixpoint intersperse_new (new s : string) : string :=
  match s with
  | EmptyString => new
  | String c s' => new ++ String c (intersperse_new new s')
  end.

Definition replace (old new s : string) : string :=
  match old with
  | EmptyString => intersperse_new new s
  | _ => replace_go old new O s
  end.

Fixpoint has_slash (s : string) : bool :=
  match s with
  | EmptyString => false
  | String c s' => if Ascii.eqb c "/"%char then true else has_slash s'
  end.

(** [os.path.basename(p)] on POSIX: what follows the last slash. *)
Fixpoint basename (p : string) : string :=
  match p with
  | EmptyString => EmptyString
  | String c p' => if has_slash p then basename p' else p
  end.

End PyStr.

(** ** Run dates and Airflow's [ds] macro

    [context['ds']] is the logical date of the run rendered as [YYYY-MM-DD].
    Python dates have years 1 to 9999, so four digits are enough. *)

Record RunDate := { year : N; month : N; day : N }.

Definition valid_date (d : RunDate) : Prop :=
  (1 <= year d <= 9999)%N /\ (1 <= month d <= 12)%N /\ (1 <= day d <= 31)%N.

(** The decimal digit of [n] in the units position, as a character. *)
Definition digit (n : N) : ascii := ascii_of_N (48 + n mod 10).

(** [%m], [%d]: two digits, zero-padded; [%Y]: four digits, zero-padded. *)
Definition pad2 (n : N) : string :=
  String (digit (n / 10)) (String (digit n) EmptyString).

Definition pad4 (n : N) : string :=
  String (digit (n / 1000)) (String (digit (n / 100)) (pad2 n)).

Definition ds_of (d : RunDate) : string :=
  pad4 (year d) ++ "-" ++ pad2 (month d) ++ "-" ++ pad2 (day d).

(** ** Paths and keys computed by the tasks *)

(** [f"/tmp/timescale_data_{context['ds']}.csv"] *)
Definition csv_path (ds : string) : string :=
  "/tmp/timescale_data_" ++ ds ++ ".csv".

(** [csv_file.replace('.csv', '.parquet')] *)
Definition parquet_path (csv_file : string) : string :=
  PyStr.replace ".csv" ".parquet" csv_file.

(** The f-string of [upload_to_s3] that builds [s3_key]. *)
Definition s3_key (execution_date parquet_file : string) : string :=
  "timescale_data/year=" ++ PyStr.slice_to 4 execution_date
  ++ "/month=" ++ PyStr.slice 5 7 execution_date
  ++ "/day=" ++ PyStr.slice 8 10 execution_date
  ++ "/" ++ PyStr.basename parquet_file.

(** The key of a run: the Extractor names the CSV after the date, the Converter
    renames it, the Uploader takes the base name of what the Converter
    returned. *)
Definition run_key (ds : string) : string :=
  s3_key ds (parquet_path (csv_path ds)).

(** ** The source table and the aggregation query

    The columns of ["sample-location-data"] that the query reads.  Timestamps
    are [TIMESTAMPTZ] values, counted in microseconds; [DECIMAL] columns are
    exact, so they are rationals here; the nullable columns are options. *)

Record Reading := {
  timestamp_column : Z;
  device_id : string;
  latitude : Q;
  longitude : Q;
  speed : option Q;
  temperature : option Q;
  humidity : option Q;
  battery_level : option Z;
  city : option string;
  country : option string
}.

(** One row of the result set, a column per item of the [SELECT] list. *)
Record AggRow := {
  hour_bucket : Z;
  g_device_id : string;
  avg_latitude : option Q;
  avg_longitude : option Q;
  avg_speed : option Q;
  avg_temperature : option Q;
  avg_humidity : option Q;
  avg_battery_level : option Q;
  record_count : nat;
  max_timestamp : Z;
  min_timestamp : Z;
  g_city : option string;
  g_country : option string
}.

Module Sql.

Definition second : Z := 1000000.
Definition minute : Z := 60 * second.
Definition hour : Z := 60 * minute.

(** [time_bucket('1 hour', t)]: the start of the hour that holds [t]. *)
Definition time_bucket (width t : Z) : Z := t - t mod width.

(** [WHERE timestamp_column >= NOW() - INTERVAL '24 hours'] *)
Definition in_window (now : Z) (r : Reading) : bool :=
  now - 24 * hour <=? timestamp_column r.

(** [GROUP BY hour_bucket, device_id, city, country] *)
Definition GroupKey : Type := Z * string * option string * option string.

Definition group_key (r : Reading) : GroupKey :=
  (time_bucket hour (timestamp_column r), device_id r, city r, country r).

Fixpoint add_to_group (k : GroupKey) (r : Reading)
    (gs : list (GroupKey * list Reading)) : list (GroupKey * list Reading) :=
  match gs with
  | [] => [(k, [r])]
  | (k', rs) :: gs' =>
      if decide (k = k') then (k', (rs ++ [r])%list) :: gs'
      else (k', rs) :: add_to_group k r gs'
  end.

Definition group_by (rows : list Reading) : list (GroupKey * list Reading) :=
  fold_left (fun gs r => add_to_group (group_key r) r gs) rows [].

(** [AVG] skips NULLs and is NULL over no value at all. *)
Definition avg (xs : list (option Q)) : option Q :=
  match omap id xs with
  | [] => None
  | v :: vs =>
      Some (fold_left Qplus vs v / inject_Z (Z.of_nat (length (v :: vs))))%Q
  end.

Definition max_of (t : Z) (ts : list Z) : Z := fold_left Z.max ts t.
Definition min_of (t : Z) (ts : list Z) : Z := fold_left Z.min ts t.

Definition aggregate (g : GroupKey * list Reading) : AggRow :=
  let '(b, dev, ci, co) := fst g in
  let rs := snd g in
  let ts := map timestamp_column rs in
  {| hour_bucket := b;
     g_device_id := dev;
     avg_latitude := avg (map (fun r => Some (latitude r)) rs);
     avg_longitude := avg (map (fun r => Some (longitude r)) rs);
     avg_speed := avg (map speed rs);
     avg_temperature := avg (map temperature rs);
     avg_humidity := avg (map humidity rs);
     avg_battery_level := avg (map (fun r => inject_Z <$> battery_level r) rs);
     record_count := length rs;
     max_timestamp := match ts with [] => b | t :: ts' => max_of t ts' end;
     min_timestamp := match ts with [] => b | t :: ts' => min_of t ts' end;
     g_city := ci;
     g_country := co |}.

(** [ORDER BY hour_bucket DESC, device_id]: does row [a] go before row [b]?
    Strings compare byte by byte. *)
Definition order_by (a b : AggRow) : bool :=
  (hour_bucket b <? hour_bucket a)
  || ((hour_bucket a =? hour_bucket b) && String.leb (g_device_id a) (g_device_id b)).

Fixpoint insert_row (x : AggRow) (l : list AggRow) : list AggRow :=
  match l with
  | [] => [x]
  | y :: l' => if order_by x y then x :: l else y :: insert_row x l'
  end.

Definition sort_rows (l : list AggRow) : list AggRow :=
  fold_right insert_row [] l.

(** The whole statement, run at time [now] over the rows of the table. *)
Definition query (now : Z) (table : list Reading) : list AggRow :=
  sort_rows (map aggregate (group_by (filter (fun r => in_window now r) table))).

End Sql.

(** The order the [ORDER BY] clause asks for, as a relation. *)
Definition bucket_desc_device_asc (a b : AggRow) : Prop :=
  hour_bucket b < hour_bucket a
  \/ (hour_bucket a = hour_bucket b /\ String.leb (g_device_id a) (g_device_id b) = true).

(** ** The world the tasks act on *)

(** The dictionary [upload_to_s3] returns. *)
Record UploadDetails := {
  bucket : string;
  key : string;
  file_size_bytes : nat;
  upload_time : Z
}.

(** A value handed from one task to the next through XCom. *)
Inductive XVal :=
| XStr (s : string)
| XDict (d : UploadDetails).

(** [timescale_config]; an unset variable is [None]. *)
Record Conn := {
  host : string;
  port : Z;
  database : option string;
  user : option string;
  password : option string
}.

Inductive Exn :=
| FileNotFoundError (path : option string)
| ValueError (msg : string)
| TypeError
| OperationalError
| ParserError
| ArrowInvalid
| ArrowIOError
| ProfileNotFound (profile : string)
| S3UploadFailedError
| OSError.

(** The messages the tasks hand to [logger], by template. *)
Inductive LogLine :=
| ExtractStarting
| Extracted (records : nat)
| SavedCsv (csv_file : string)
| ExtractError (e : Exn)
| ConvertStarting
| ReadCsv (records : nat)
| ParquetCreated (parquet_file : string)
| CleanedCsv (csv_file : string)
| ConvertError (e : Exn)
| UploadStarting
| Uploaded (bucket key : string)
| CleanedParquet (parquet_file : string)
| UploadError (e : Exn)
| CompletedBanner
| ExecutionDate (ds : string)
| S3Location (bucket key : string)
| FileSize (bytes : nat)
| UploadTime (t : Z)
| CompletedRule.

Inductive TaskId := extract_task | convert_task | upload_task | notify_task.

(** What a run does to the outside, in the order it does it. *)
Inductive Event :=
| Log (l : LogLine)
| TaskAttempt (t : TaskId) (try_number : nat)
| SqlQuery (c : Conn) (now : Z)
| FileRead (path : string)
| FileWrite (path : string)
| FileRemove (path : string)
| BotoSession (profile : string)
| S3Client
| S3UploadFile (local bucket key : string).

Record World := {
  fs : gmap string string;            (* local files: path to bytes *)
  env : gmap string string;           (* os.environ *)
  xcom : gmap string XVal;            (* task_id to return value *)
  s3 : gmap (string * string) string; (* (bucket, key) to bytes *)
  clock : Z;                          (* microseconds *)
  trace : list Event
}.

Definition with_fs (f : gmap string string) (w : World) : World :=
  {| fs := f; env := env w; xcom := xcom w; s3 := s3 w; clock := clock w; trace := trace w |}.
Definition with_xcom (x : gmap string XVal) (w : World) : World :=
  {| fs := fs w; env := env w; xcom := x; s3 := s3 w; clock := clock w; trace := trace w |}.
Definition with_s3 (o : gmap (string * string) string) (w : World) : World :=
  {| fs := fs w; env := env w; xcom := xcom w; s3 := o; clock := clock w; trace := trace w |}.
Definition with_clock (t : Z) (w : World) : World :=
  {| fs := fs w; env := env w; xcom := xcom w; s3 := s3 w; clock := t; trace := trace w |}.
Definition with_trace (tr : list Event) (w : World) : World :=
  {| fs := fs w; env := env w; xcom := xcom w; s3 := s3 w; clock := clock w; trace := tr |}.

(** How [pq.write_table] can end: the file is there in full, or the call
    raised, perhaps leaving a truncated file behind. *)
Inductive WriteOutcome :=
| Written (bytes : string)
| WriteFailed (left_behind : option string).

(** How a write of given bytes to the local disk can end: they are all
    there, or the call raised, perhaps leaving something else at the path. *)
Inductive DiskWrite :=
| WriteThrough
| WriteAborted (left_behind : option string).

(** The libraries and services the tasks call and this repository does not
    define: the interpreter's [int], the database behind [pd.read_sql],
    pandas, pyarrow, boto3 and S3, and the operating system under [os].  The
    database, S3 and the disk may answer differently at different times. *)
Class Collaborators := {
  Frame : Type;
  ArrowTable : Type;
  py_int : string -> option Z;
  int_error : string -> string;
  table_at : Conn -> Z -> option (list Reading);
  to_csv : list AggRow -> string;
  read_csv : string -> option Frame;
  frame_len : Frame -> nat;
  from_pandas : Frame -> option ArrowTable;
  write_table : ArrowTable -> WriteOutcome;
  profile_ok : string -> bool;
  s3_accepts : Z -> string -> string -> bool;
  csv_disk : Z -> string -> string -> DiskWrite;
  getsize_ok : Z -> string -> bool;
  remove_ok : Z -> string -> bool
}.

(** ** Tasks as state-and-exception computations

    A raised exception keeps whatever the task did to the world before it. *)

Definition M (A : Type) : Type := World -> (Exn + A) * World.

#[global] Instance M_ret : MRet M := fun A a w => (inr a, w).
#[global] Instance M_bind : MBind M := fun A B k m w =>
  match m w with
  | (inr a, w') => k a w'
  | (inl e, w') => (inl e, w')
  end.

Definition raise {A} (e : Exn) : M A := fun w => (inl e, w).
Definition get_world : M World := fun w => (inr w, w).
Definition emit (e : Event) : M unit :=
  fun w => (inr tt, with_trace (trace w ++ [e])%list w).

(** [try: body except Exception as e: handler(e); raise] *)
Definition try_except {A} (body : M A) (handler : Exn -> M unit) : M A :=
  fun w =>
    match body w with
    | (inl e, w') =>
        match handler e w' with
        | (inr _, w'') => (inl e, w'')
        | (inl e', w'') => (inl e', w'')
        end
    | ok => ok
    end.

Module Py.

(** [logger.info], [logger.error] *)
Definition log (l : LogLine) : M unit := emit (Log l).

(** [os.getenv(name)] *)
Definition getenv (name : string) : M (option string) :=
  fun w => (inr (env w !! name), w).

(** [not v] for an optional string: [None] and [''] are falsy. *)
Definition falsy (v : option string) : bool :=
  match v with
  | None | Some EmptyString => true
  | Some _ => false
  end.

(** [context['task_instance'].xcom_pull(task_ids=t)] *)
Definition xcom_pull (task_ids : string) : M (option XVal) :=
  fun w => (inr (xcom w !! task_ids), w).

(** [os.path.exists(p)] *)
Definition exists_ (p : string) : M bool :=
  fun w => (inr (bool_decide (is_Some (fs w !! p))), w).

(** Reading a file in full, as [pd.read_csv] and [upload_file] do. *)
Definition read_file (p : string) : M string :=
  fun w =>
    match fs w !! p with
    | Some b => (inr b, with_trace (trace w ++ [FileRead p])%list w)
    | None => (inl (FileNotFoundError (Some p)), w)
    end.

(** What a write has done once bytes are at the path; whether the call
    that wrote them returns or raises is for its caller to say. *)
Definition store_file (p bytes : string) : M unit :=
  fun w => (inr tt, with_trace (trace w ++ [FileWrite p])%list (with_fs (<[p := bytes]> (fs w)) w)).

(** Writing [bytes] to [p], as [DataFrame.to_csv] does: the disk decides
    whether the call returns, and what is at the path if it raises. *)
Definition write_file (fate : DiskWrite) (p bytes : string) : M unit :=
  match fate with
  | WriteThrough => store_file p bytes
  | WriteAborted (Some junk) => store_file p junk;; raise OSError
  | WriteAborted None => raise OSError
  end.

(** [os.remove(p)]: a missing file raises [FileNotFoundError]; a file the
    system refuses to remove raises [OSError] and stays. *)
Definition remove `{Collaborators} (p : string) : M unit :=
  fun w =>
    match fs w !! p with
    | Some _ =>
        if remove_ok (clock w) p
        then (inr tt, with_trace (trace w ++ [FileRemove p])%list (with_fs (delete p (fs w)) w))
        else (inl OSError, w)
    | None => (inl (FileNotFoundError (Some p)), w)
    end.

(** [os.path.getsize(p)]: a missing file raises [FileNotFoundError]; a file
    the system refuses to stat raises [OSError]. *)
Definition getsize `{Collaborators} (p : string) : M nat :=
  fun w =>
    match fs w !! p with
    | Some b =>
        if getsize_ok (clock w) p then (inr (String.length b), w) else (inl OSError, w)
    | None => (inl (FileNotFoundError (Some p)), w)
    end.

(** [datetime.now()] *)
Definition now : M Z := fun w => (inr (clock w), w).

End Py.

(** ** The four task callables *)

Section Tasks.
Context `{Collaborators}.

(** [pd.read_sql(query, conn_string)]: the statement runs on the server, at
    the server's [NOW()]. *)
Definition read_sql (c : Conn) : M (list AggRow) :=
  w ← get_world;
  emit (SqlQuery c (clock w));;
  match table_at c (clock w) with
  | Some rows => mret (Sql.query (clock w) rows)
  | None => raise OperationalError
  end.

Definition extract_timescale_data (ds : string) : M string :=
  Py.log ExtractStarting;;
  h ← Py.getenv "TIMESCALE_HOST";
  p ← Py.getenv "TIMESCALE_PORT";
  port_number ← match p with
                | None => mret 5432
                | Some s => match py_int s with
                            | Some n => mret n
                            | None => raise (ValueError (int_error s))
                            end
                end;
  db ← Py.getenv "TIMESCALE_DB";
  u ← Py.getenv "TIMESCALE_USER";
  pw ← Py.getenv "TIMESCALE_PASSWORD";
  let timescale_config :=
    {| host := default "localhost" h; port := port_number;
       database := db; user := u; password := pw |} in
  try_except
    (df ← read_sql timescale_config;
     Py.log (Extracted (length df));;
     let csv_file := csv_path ds in
     w ← get_world;
     Py.write_file (csv_disk (clock w) csv_file (to_csv df)) csv_file (to_csv df);;
     Py.log (SavedCsv csv_file);;
     mret csv_file)
    (fun e => Py.log (ExtractError e)).

(** The guard both consumers put on the path they pull:
    [if not f or not os.path.exists(f): raise FileNotFoundError]. *)
Definition pulled_path (task_ids : string) : M string :=
  v ← Py.xcom_pull task_ids;
  match v with
  | None => raise (FileNotFoundError None)
  | Some (XDict _) => raise TypeError
  | Some (XStr f) =>
      if Py.falsy (Some f) then raise (FileNotFoundError (Some f))
      else
        (there ← Py.exists_ f;
         if there : bool then mret f else raise (FileNotFoundError (Some f))) : M string
  end.

Definition convert_csv_to_parquet (ds : string) : M string :=
  Py.log ConvertStarting;;
  csv_file ← pulled_path "extract_timescale_data";
  try_except
    (text ← Py.read_file csv_file;
     df ← match read_csv text with
          | Some df => mret df
          | None => raise ParserError
          end;
     Py.log (ReadCsv (frame_len df));;
     table ← match from_pandas df with
             | Some t => mret t
             | None => raise ArrowInvalid
             end;
     let parquet_file := parquet_path csv_file in
     match write_table table with
     | Written bytes => Py.store_file parquet_file bytes
     | WriteFailed (Some junk) => Py.store_file parquet_file junk;; raise ArrowIOError
     | WriteFailed None => raise ArrowIOError
     end;;
     Py.log (ParquetCreated parquet_file);;
     Py.remove csv_file;;
     Py.log (CleanedCsv csv_file);;
     mret parquet_file)
    (fun e => Py.log (ConvertError e)).

(** S3 stores one object per bucket and key: a put replaces what was there. *)
Definition put_object (bucket_name s3_key bytes : string) : M unit :=
  fun w => (inr tt, with_s3 (<[(bucket_name, s3_key) := bytes]> (s3 w)) w).

(** [s3_client.upload_file(local, bucket, key)]: the object is there, whole,
    exactly when the call returns. *)
Definition upload_file (local bucket_name s3_key : string) : M unit :=
  emit (S3UploadFile local bucket_name s3_key);;
  bytes ← Py.read_file local;
  w ← get_world;
  if s3_accepts (clock w) bucket_name s3_key
  then put_object bucket_name s3_key bytes
  else raise S3UploadFailedError.

Definition upload_to_s3 (ds : string) : M UploadDetails :=
  Py.log UploadStarting;;
  parquet_file ← pulled_path "convert_to_parquet";
  b ← Py.getenv "AWS_S3_BUCKET";
  pr ← Py.getenv "AWS_PROFILE";
  let aws_profile := default "qa-in" pr in
  if Py.falsy b then raise (ValueError "AWS_S3_BUCKET environment variable not set")
  else
    let bucket_name := default "" b in
    try_except
      (emit (BotoSession aws_profile);;
       (if profile_ok aws_profile then mret tt else raise (ProfileNotFound aws_profile));;
       emit S3Client;;
       let execution_date := ds in
       let key := s3_key execution_date parquet_file in
       upload_file parquet_file bucket_name key;;
       file_size ← Py.getsize parquet_file;
       Py.log (Uploaded bucket_name key);;
       Py.remove parquet_file;;
       Py.log (CleanedParquet parquet_file);;
       t ← Py.now;
       mret {| bucket := bucket_name; key := key;
               file_size_bytes := file_size; upload_time := t |})
      (fun e => Py.log (UploadError e)).

Definition notify_completion (ds : string) : M unit :=
  v ← Py.xcom_pull "upload_to_s3";
  Py.log CompletedBanner;;
  Py.log (ExecutionDate ds);;
  match v with
  | Some (XDict upload_details) =>
      Py.log (S3Location (bucket upload_details) (key upload_details));;
      Py.log (FileSize (file_size_bytes upload_details));;
      Py.log (UploadTime (upload_time upload_details));;
      Py.log CompletedRule
  | _ => raise TypeError
  end.

(** ** The DAG: task order, XCom hand-off, retries *)

Record DefaultArgs := { retries : nat; retry_delay : Z; execution_timeout : Z }.

Definition default_args : DefaultArgs :=
  {| retries := 2; retry_delay := 5 * Sql.minute; execution_timeout := 2 * Sql.hour |}.

Definition task_id (t : TaskId) : string :=
  match t with
  | extract_task => "extract_timescale_data"
  | convert_task => "convert_to_parquet"
  | upload_task => "upload_to_s3"
  | notify_task => "notify_completion"
  end.

(** [python_callable], with the return value as the operator pushes it to
    XCom ([None] is not pushed). *)
Definition python_callable (t : TaskId) (ds : string) : M (option XVal) :=
  match t with
  | extract_task => p ← extract_timescale_data ds; mret (Some (XStr p))
  | convert_task => p ← convert_csv_to_parquet ds; mret (Some (XStr p))
  | upload_task => d ← upload_to_s3 ds; mret (Some (XDict d))
  | notify_task => notify_completion ds;; mret None
  end.

Inductive TaskState :=
| TaskSuccess (tries : nat)
| TaskFailed (e : Exn) (tries : nat).

(** The world an attempt starts in: the attempt is recorded and the task's
    XCom of an earlier attempt is cleared. *)
Definition attempt_start (t : TaskId) (try_number : nat) (w : World) : World :=
  with_trace (trace w ++ [TaskAttempt t try_number])%list
    (with_xcom (delete (task_id t) (xcom w)) w).

(** The operator pushes what the callable returned. *)
Definition xcom_push (t : TaskId) (v : option XVal) (w : World) : World :=
  match v with
  | Some x => with_xcom (<[task_id t := x]> (xcom w)) w
  | None => w
  end.

(** Waiting for [retry_delay] before the next attempt. *)
Definition backoff (w : World) : World :=
  with_clock (clock w + retry_delay default_args) w.

(** One task instance: a raised exception is retried after [retry_delay]
    while retries are left. *)
Fixpoint attempts (left : nat) (try_number : nat) (t : TaskId) (ds : string)
    (w : World) : TaskState * World :=
  match python_callable t ds (attempt_start t try_number w) with
  | (inr v, w1) => (TaskSuccess try_number, xcom_push t v w1)
  | (inl e, w1) =>
      match left with
      | O => (TaskFailed e try_number, w1)
      | S k => attempts k (S try_number) t ds (backoff w1)
      end
  end.

Definition run_task (t : TaskId) (ds : string) (w : World) : TaskState * World :=
  attempts (retries default_args) 1 t ds w.

Inductive RunState :=
| Completed
| Failed (t : TaskId) (e : Exn) (tries : nat).

(** A task starts when the one before it succeeded; a failed task fails the
    run and nothing after it starts. *)
Fixpoint run_chain (ts : list TaskId) (ds : string) (w : World) : RunState * World :=
  match ts with
  | [] => (Completed, w)
  | t :: rest =>
      match run_task t ds w with
      | (TaskSuccess _, w') => run_chain rest ds w'
      | (TaskFailed e n, w') => (Failed t e n, w')
      end
  end.

(** [extract_task >> convert_task >> upload_task >> notify_task] *)
Definition dag_tasks : list TaskId :=
  [extract_task; convert_task; upload_task; notify_task].

Definition run_dag (ds : string) (w : World) : RunState * World :=
  run_chain dag_tasks ds w.

(** [k] attempts of [t] in a row that raised, the first with number [n],
    each followed by the backoff. *)
Inductive failed_tries (t : TaskId) (ds : string) : nat → nat → World → World → Prop :=
| failed_none n w : failed_tries t ds 0 n w w
| failed_more k n w e w1 w' :
    python_callable t ds (attempt_start t n w) = (inl e, w1) →
    failed_tries t ds k (S n) (backoff w1) w' →
    failed_tries t ds (S k) n w w'.

End Tasks.

(** ** Vocabulary of the properties *)

(** The value of a string of decimal digits. *)
Definition digits_value (s : string) : N :=
  fold_left (fun acc c => (10 * acc + (N_of_ascii c - 48))%N) (list_ascii_of_string s) 0%N.

(** Kinds of events. *)
Definition is_attempt (e : Event) : bool :=
  match e with TaskAttempt _ _ => true | _ => false end.
Definition is_remove (e : Event) : bool :=
  match e with FileRemove _ => true | _ => false end.
Definition is_file_write (e : Event) : bool :=
  match e with FileWrite _ => true | _ => false end.
(** Anything that goes to AWS: a session, a client, a transfer. *)
Definition is_s3_io (e : Event) : bool :=
  match e with BotoSession _ | S3Client | S3UploadFile _ _ _ => true | _ => false end.

(** The events of [w'] are those of [w] followed by [evs]. *)
Definition emitted (w w' : World) (evs : list Event) : Prop :=
  trace w' = (trace w ++ evs)%list.

(** The attempts recorded in a trace. *)
Definition attempt_log (evs : list Event) : list (TaskId * nat) :=
  omap (λ e, match e with TaskAttempt t n => Some (t, n) | _ => None end) evs.

(** The file a consumer pulls is staged: the path is a real one and the file
    is on disk. *)
Definition staged (task_ids : string) (w : World) (f bytes : string) : Prop :=
  xcom w !! task_ids = Some (XStr f) ∧ f ≠ "" ∧ fs w !! f = Some bytes.

(** The path a consumer pulls from the task before it is not usable: nothing
    was pushed, or the file it names is not on disk. *)
Definition input_missing (t : TaskId) (w : World) : Prop :=
  ∃ up, (t = convert_task ∧ up = "extract_timescale_data" ∨
         t = upload_task ∧ up = "convert_to_parquet") ∧
    (xcom w !! up = None ∨ ∃ f, xcom w !! up = Some (XStr f) ∧ fs w !! f = None).

(** The bucket [o] is the bucket of [w], or the bucket of [w] with the
    Parquet file staged in [w] put under the key of the run, after which
    [os.path.getsize] or [os.remove] refused at some time. *)
Definition at_most_put `{Collaborators} (ds : string) (w : World)
    (o : gmap (string * string) string) : Prop :=
  o = s3 w ∨
  ∃ pf bytes b now,
    xcom w !! "convert_to_parquet" = Some (XStr pf) ∧
    fs w !! pf = Some bytes ∧
    env w !! "AWS_S3_BUCKET" = Some b ∧ b ≠ "" ∧
    (getsize_ok now pf = false ∨ remove_ok now pf = false) ∧
    o = <[(b, s3_key ds pf) := bytes]> (s3 w).

(** The files [f] are the files of [w], or those with something left at the
    CSV path of the run by a write that was aborted. *)
Definition at_most_csv (ds : string) (w : World) (f : gmap string string) : Prop :=
  f = fs w ∨ ∃ junk, f = <[csv_path ds := junk]> (fs w).

(** The columns a result row is grouped by. *)
Definition row_key (r : AggRow) : Sql.GroupKey :=
  (hour_bucket r, g_device_id r, g_city r, g_country r).

(** What [GROUP BY] keeps true of the groups built so far: no key twice, no
    empty group, every reading under its own key. *)
Definition groups_ok (gs : list (Sql.GroupKey * list Reading)) : Prop :=
  NoDup (map fst gs) ∧
  Forall (λ g, g.2 ≠ [] ∧ Forall (λ r, Sql.group_key r = g.1) g.2) gs.

(** Does the character occur in the string? *)
Fixpoint occurs (c : ascii) (s : string) : bool :=
  match s with
  | EmptyString => false
  | String c' s' => if Ascii.eqb c' c then true else occurs c s'
  end.

(** [int(os.getenv('TIMESCALE_PORT', 5432))], when it is a number. *)
Definition configured_port `{Collaborators} (w : World) : option Z :=
  match env w !! "TIMESCALE_PORT" with
  | None => Some 5432
  | Some s => py_int s
  end.

(** [timescale_config], as the environment gives it. *)
Definition configured_conn (w : World) (port_number : Z) : Conn :=
  {| host := default "localhost" (env w !! "TIMESCALE_HOST"); port := port_number;
     database := env w !! "TIMESCALE_DB"; user := env w !! "TIMESCALE_USER";
     password := env w !! "TIMESCALE_PASSWORD" |}.

(** ** Sample collaborators and worlds *)

Module Demo.

Definition reading (t : Z) (dev : string) : Reading :=
  {| timestamp_column := t; device_id := dev; latitude := 19; longitude := 72;
     speed := Some 3%Q; temperature := None; humidity := Some 60%Q;
     battery_level := Some 50; city := Some "Mumbai"; country := Some "India" |}.

Definition table : list Reading :=
  [ reading 7200000000 "MUM_002"; reading 7300000000 "MUM_001";
    reading 3700000000 "MUM_001"; reading 7400000000 "MUM_001" ].

(** Everything answers. *)
Definition libs : Collaborators := {|
  Frame := string; ArrowTable := string;
  py_int := fun s => if String.eqb s "5432" then Some 5432 else None;
  int_error := fun s => "invalid literal for int() with base 10: '" ++ s ++ "'";
  table_at := fun _ _ => Some table;
  to_csv := fun rows => String.concat "," (map g_device_id rows);
  read_csv := fun text => Some text;
  frame_len := fun df => String.length df;
  from_pandas := fun df => Some df;
  write_table := fun t => Written ("PAR1" ++ t);
  profile_ok := fun _ => true;
  s3_accepts := fun _ _ _ => true;
  csv_disk := fun _ _ _ => WriteThrough;
  getsize_ok := fun _ _ => true;
  remove_ok := fun _ _ => true |}.

(** The database cannot be reached. *)
Definition libs_db_down : Collaborators := {|
  Frame := string; ArrowTable := string;
  py_int := fun s => if String.eqb s "5432" then Some 5432 else None;
  int_error := fun s => "invalid literal for int() with base 10: '" ++ s ++ "'";
  table_at := fun _ _ => None;
  to_csv := fun rows => String.concat "," (map g_device_id rows);
  read_csv := fun text => Some text;
  frame_len := fun df => String.length df;
  from_pandas := fun df => Some df;
  write_table := fun t => Written ("PAR1" ++ t);
  profile_ok := fun _ => true;
  s3_accepts := fun _ _ _ => true;
  csv_disk := fun _ _ _ => WriteThrough;
  getsize_ok := fun _ _ => true;
  remove_ok := fun _ _ => true |}.

(** The Parquet writer gives up half way and leaves a truncated file. *)
Definition libs_disk_full : Collaborators := {|
  Frame := string; ArrowTable := string;
  py_int := fun s => if String.eqb s "5432" then Some 5432 else None;
  int_error := fun s => "invalid literal for int() with base 10: '" ++ s ++ "'";
  table_at := fun _ _ => Some table;
  to_csv := fun rows => String.concat "," (map g_device_id rows);
  read_csv := fun text => Some text;
  frame_len := fun df => String.length df;
  from_pandas := fun df => Some df;
  write_table := fun t => WriteFailed (Some "PAR1");
  profile_ok := fun _ => true;
  s3_accepts := fun _ _ _ => true;
  csv_disk := fun _ _ _ => WriteThrough;
  getsize_ok := fun _ _ => true;
  remove_ok := fun _ _ => true |}.

Definition date : RunDate := {| year := 2025; month := 3; day := 7 |}.
Definition ds : string := "2025-03-07".

(** A worker with the bucket configured and nothing staged. *)
Definition fresh : World :=
  {| fs := ∅; env := {[ "AWS_S3_BUCKET" := "lake" ]}; xcom := ∅; s3 := ∅;
     clock := 0; trace := [] |}.

(** The same worker without the bucket. *)
Definition no_bucket : World :=
  {| fs := ∅; env := ∅; xcom := ∅; s3 := ∅; clock := 0; trace := [] |}.

(** After the Extractor: the CSV is staged. *)
Definition extracted : World := Eval vm_compute in (run_task (H := libs) extract_task ds fresh).2.

(** After the Converter: the Parquet file is staged, the CSV is gone. *)
Definition converted : World := Eval vm_compute in (run_task (H := libs) convert_task ds extracted).2.

(** The bucket as a first run left it, on a worker that is otherwise new. *)
Definition after_first_run : World :=
  with_s3 (s3 (run_dag (H := libs) ds fresh).2) fresh.

(** Staged like [converted], but the bucket is not configured. *)
Definition converted_no_bucket : World :=
  {| fs := fs converted; env := ∅; xcom := xcom converted; s3 := ∅;
     clock := 0; trace := [] |}.

(** What the Uploader returns for [converted]. *)
Definition details : UploadDetails :=
  {| bucket := "lake";
     key := "timescale_data/year=2025/month=03/day=07/timescale_data_2025-03-07.parquet";
     file_size_bytes := 27; upload_time := 0 |}.

(** The database is down at first and back within five minutes. *)
Definition libs_db_flaky : Collaborators := {|
  Frame := string; ArrowTable := string;
  py_int := fun s => if String.eqb s "5432" then Some 5432 else None;
  int_error := fun s => "invalid literal for int() with base 10: '" ++ s ++ "'";
  table_at := fun _ now => if now <? 5 * Sql.minute then None else Some table;
  to_csv := fun rows => String.concat "," (map g_device_id rows);
  read_csv := fun text => Some text;
  frame_len := fun df => String.length df;
  from_pandas := fun df => Some df;
  write_table := fun t => Written ("PAR1" ++ t);
  profile_ok := fun _ => true;
  s3_accepts := fun _ _ _ => true;
  csv_disk := fun _ _ _ => WriteThrough;
  getsize_ok := fun _ _ => true;
  remove_ok := fun _ _ => true |}.

(** boto3 does not know the profile. *)
Definition libs_no_profile : Collaborators := {|
  Frame := string; ArrowTable := string;
  py_int := fun s => if String.eqb s "5432" then Some 5432 else None;
  int_error := fun s => "invalid literal for int() with base 10: '" ++ s ++ "'";
  table_at := fun _ _ => Some table;
  to_csv := fun rows => String.concat "," (map g_device_id rows);
  read_csv := fun text => Some text;
  frame_len := fun df => String.length df;
  from_pandas := fun df => Some df;
  write_table := fun t => Written ("PAR1" ++ t);
  profile_ok := fun _ => false;
  s3_accepts := fun _ _ _ => true;
  csv_disk := fun _ _ _ => WriteThrough;
  getsize_ok := fun _ _ => true;
  remove_ok := fun _ _ => true |}.

(** The system refuses to remove the Parquet file of the run. *)
Definition libs_no_remove : Collaborators := {|
  Frame := string; ArrowTable := string;
  py_int := fun s => if String.eqb s "5432" then Some 5432 else None;
  int_error := fun s => "invalid literal for int() with base 10: '" ++ s ++ "'";
  table_at := fun _ _ => Some table;
  to_csv := fun rows => String.concat "," (map g_device_id rows);
  read_csv := fun text => Some text;
  frame_len := fun df => String.length df;
  from_pandas := fun df => Some df;
  write_table := fun t => Written ("PAR1" ++ t);
  profile_ok := fun _ => true;
  s3_accepts := fun _ _ _ => true;
  csv_disk := fun _ _ _ => WriteThrough;
  getsize_ok := fun _ _ => true;
  remove_ok := fun _ p => negb (String.eqb p "/tmp/timescale_data_2025-03-07.parquet") |}.

(** The disk fills up while the CSV is written. *)
Definition libs_csv_disk_full : Collaborators := {|
  Frame := string; ArrowTable := string;
  py_int := fun s => if String.eqb s "5432" then Some 5432 else None;
  int_error := fun s => "invalid literal for int() with base 10: '" ++ s ++ "'";
  table_at := fun _ _ => Some table;
  to_csv := fun rows => String.concat "," (map g_device_id rows);
  read_csv := fun text => Some text;
  frame_len := fun df => String.length df;
  from_pandas := fun df => Some df;
  write_table := fun t => Written ("PAR1" ++ t);
  profile_ok := fun _ => true;
  s3_accepts := fun _ _ _ => true;
  csv_disk := fun _ _ _ => WriteAborted (Some "MUM_001,");
  getsize_ok := fun _ _ => true;
  remove_ok := fun _ _ => true |}.

(** The Parquet file staged in [converted]. *)
Definition parquet_file : string := "/tmp/timescale_data_2025-03-07.parquet".
Definition parquet_bytes : string := "PAR1MUM_001,MUM_002,MUM_001".

(** A worker whose port setting is not a number. *)
Definition bad_port : World :=
  {| fs := ∅; env := {[ "TIMESCALE_PORT" := "five" ]}; xcom := ∅; s3 := ∅;
     clock := 0; trace := [] |}.

(** A staged file whose name has no [.csv] in it. *)
Definition odd_name : World :=
  {| fs := {[ "/tmp/rows" := "MUM_001" ]}; env := ∅;
     xcom := {[ "extract_timescale_data" := XStr "/tmp/rows" ]}; s3 := ∅;
     clock := 0; trace := [] |}.

End Demo.

(** ** Tactics for running a task symbolically *)

Ltac unfold_m :=
  unfold pulled_path, upload_file, put_object, read_sql, try_except,
    Py.log, Py.getenv, Py.xcom_pull, Py.exists_, Py.read_file, Py.write_file,
    Py.store_file, Py.remove, Py.getsize, Py.now, raise, emit, get_world,
    mbind, M_bind, mret, M_ret in *.

(** Case analysis along every branch a call can take. *)
Ltac run_cases E :=
  unfold_m; simpl in E; repeat (case_match; simplify_eq/=).

(** Bring a trace into the shape [trace w ++ evs] and name [evs]. *)
Ltac trace_shape :=
  unfold emitted; simpl; rewrite <- ?app_assoc; simpl;
  first [ eexists; split; [reflexivity|] | exists []; split; [by rewrite app_nil_r|] ].

(** * Properties *)

(** ** Strings *)

Lemma length_append (a b : string) :
  String.length (a ++ b) = (String.length a + String.length b)%nat.
Proof. induction a as [|c a IH]; simpl; [done | by rewrite IH]. Qed.

Lemma prefix_append (a b : string) : String.prefix a (a ++ b) = true.
Proof.
  induction a as [|c a IH]; simpl; [by destruct b|].
  destruct (ascii_dec c c); [done | congruence].
Qed.

Section Replace.
Variables old new : string.
Hypothesis old_nonempty : (0 < String.length old)%nat.
Hypothesis new_longer : (String.length old < String.length new)%nat.

Lemma replace_go_length (s : string) : ∀ k,
  (String.length s <= String.length (PyStr.replace_go old new k s) + k)%nat.
Proof.
  induction s as [|c s IH]; intros k; cbn [PyStr.replace_go String.length]; [lia|].
  destruct k as [|k].
  - destruct (String.prefix old (String c s)).
    + rewrite length_append.
      specialize (IH (Nat.pred (String.length old))). lia.
    + cbn [String.length]. specialize (IH O). lia.
  - specialize (IH k). lia.
Qed.

Lemma replace_go_0 (c : ascii) (s : string) :
  PyStr.replace_go old new O (String c s)
  = if String.prefix old (String c s)
    then new ++ PyStr.replace_go old new (Nat.pred (String.length old)) s
    else String c (PyStr.replace_go old new O s).
Proof. reflexivity. Qed.

Lemma replace_go_grows (a b : string) :
  (String.length (a ++ old ++ b)
   < String.length (PyStr.replace_go old new O (a ++ old ++ b)))%nat.
Proof.
  induction a as [|c a IH].
  - change ("" ++ old ++ b) with (old ++ b).
    destruct (old ++ b) as [|c s] eqn:E.
    + apply (f_equal String.length) in E. rewrite length_append in E.
      simpl in E. lia.
    + rewrite replace_go_0, <- E, prefix_append, length_append.
      pose proof (replace_go_length s (Nat.pred (String.length old))) as L.
      apply (f_equal String.length) in E. rewrite length_append in E.
      simpl in E. rewrite length_append. lia.
  - change (String c a ++ old ++ b) with (String c (a ++ old ++ b)).
    rewrite replace_go_0.
    destruct (String.prefix old _).
    + rewrite length_append.
      pose proof (replace_go_length (a ++ old ++ b) (Nat.pred (String.length old))).
      cbn [String.length]. lia.
    + cbn [String.length]. lia.
Qed.
End Replace.

Lemma parquet_path_fresh (ds : string) : parquet_path (csv_path ds) ≠ csv_path ds.
Proof.
  intros E. apply (f_equal String.length) in E. revert E.
  unfold parquet_path, csv_path. unfold PyStr.replace.
  pose proof (replace_go_grows ".csv" ".parquet" ltac:(simpl; lia) ltac:(simpl; lia)
                ("/tmp/timescale_data_" ++ ds) "") as G.
  replace (("/tmp/timescale_data_" ++ ds) ++ ".csv" ++ "")
    with ("/tmp/timescale_data_" ++ ds ++ ".csv") in G; [lia|].
  simpl. by repeat f_equal.
Qed.

Example ds_2025_03_07 : ds_of {| year := 2025; month := 3; day := 7 |} = "2025-03-07".
Proof. reflexivity. Qed.

Example parquet_path_ex :
  parquet_path (csv_path "2025-03-07") = "/tmp/timescale_data_2025-03-07.parquet".
Proof. reflexivity. Qed.

Example s3_key_ex :
  s3_key "2025-03-07" "/tmp/timescale_data_2025-03-07.parquet"
  = "timescale_data/year=2025/month=03/day=07/timescale_data_2025-03-07.parquet".
Proof. reflexivity. Qed.

Lemma digit_value (n : N) : (N_of_ascii (digit n) - 48 = n mod 10)%N.
Proof.
  unfold digit.
  assert (n mod 10 < 10)%N as L by (apply N.mod_lt; lia).
  revert L. generalize (n mod 10)%N. intros r L.
  rewrite N_ascii_embedding; lia.
Qed.

(** Division by ten, without [/] and [mod] left for the arithmetic. *)
Lemma tens (n : N) : ∃ q r, (n / 10 = q ∧ n mod 10 = r ∧ n = 10 * q + r ∧ r < 10)%N.
Proof.
  exists (n / 10)%N, (n mod 10)%N. repeat split.
  - apply N.div_mod'.
  - apply N.mod_lt. lia.
Qed.

Lemma pad2_value (n : N) : (n <= 99)%N → digits_value (pad2 n) = n.
Proof.
  intros L. unfold digits_value, pad2. cbn [list_ascii_of_string fold_left].
  rewrite !digit_value.
  destruct (tens n) as (q & r & -> & -> & E & R).
  rewrite (N.mod_small q 10); lia.
Qed.

Lemma pad4_value (n : N) : (n <= 9999)%N → digits_value (pad4 n) = n.
Proof.
  intros L. unfold digits_value, pad4, pad2. cbn [list_ascii_of_string fold_left].
  rewrite !digit_value.
  replace (n / 100)%N with (n / 10 / 10)%N by (by rewrite N.Div0.div_div).
  replace (n / 1000)%N with (n / 10 / 10 / 10)%N by (by rewrite !N.Div0.div_div).
  destruct (tens n) as (q1 & r1 & -> & -> & E1 & R1).
  destruct (tens q1) as (q2 & r2 & -> & -> & E2 & R2).
  destruct (tens q2) as (q3 & r3 & -> & -> & E3 & R3).
  rewrite (N.mod_small q3 10); lia.
Qed.

(** ** The order of the result set *)

Lemma ascii_compare_eq (a b : ascii) : Ascii.compare a b = Eq → a = b.
Proof.
  unfold Ascii.compare. intros E%N.compare_eq_iff.
  by rewrite <- (ascii_N_embedding a), <- (ascii_N_embedding b), E.
Qed.

Lemma ascii_compare_refl (a : ascii) : Ascii.compare a a = Eq.
Proof. unfold Ascii.compare. apply N.compare_refl. Qed.

Lemma ascii_compare_lt_trans (a b c : ascii) :
  Ascii.compare a b = Lt → Ascii.compare b c = Lt → Ascii.compare a c = Lt.
Proof.
  unfold Ascii.compare. rewrite !N.compare_lt_iff. apply N.lt_trans.
Qed.

Lemma string_compare_le_trans (s1 : string) : ∀ s2 s3,
  String.compare s1 s2 ≠ Gt → String.compare s2 s3 ≠ Gt → String.compare s1 s3 ≠ Gt.
Proof.
  induction s1 as [|a s1 IH]; intros [|b s2] [|c s3]; simpl; try done.
  destruct (Ascii.compare a b) eqn:Eab; [| |done];
    destruct (Ascii.compare b c) eqn:Ebc; try done.
  - apply ascii_compare_eq in Eab as ->. rewrite Ebc. apply IH.
  - apply ascii_compare_eq in Eab as ->. by rewrite Ebc.
  - apply ascii_compare_eq in Ebc as ->. by rewrite Eab.
  - by rewrite (ascii_compare_lt_trans a b c).
Qed.

Lemma string_leb_trans (s1 s2 s3 : string) :
  String.leb s1 s2 = true → String.leb s2 s3 = true → String.leb s1 s3 = true.
Proof.
  unfold String.leb. intros H12 H23.
  pose proof (string_compare_le_trans s1 s2 s3) as T.
  destruct (String.compare s1 s2), (String.compare s2 s3), (String.compare s1 s3);
    try done; exfalso; by apply T.
Qed.

Lemma order_by_spec (a b : AggRow) :
  Sql.order_by a b = true ↔ bucket_desc_device_asc a b.
Proof.
  unfold Sql.order_by, bucket_desc_device_asc.
  rewrite orb_true_iff, andb_true_iff, Z.ltb_lt, Z.eqb_eq. tauto.
Qed.

Lemma order_total (a b : AggRow) :
  bucket_desc_device_asc a b ∨ bucket_desc_device_asc b a.
Proof.
  unfold bucket_desc_device_asc.
  destruct (Z.lt_trichotomy (hour_bucket a) (hour_bucket b)) as [L|[E|L]]; [tauto| |tauto].
  destruct (String.leb_total (g_device_id a) (g_device_id b)); [left | right]; right; done.
Qed.

Lemma order_trans (a b c : AggRow) :
  bucket_desc_device_asc a b → bucket_desc_device_asc b c → bucket_desc_device_asc a c.
Proof.
  unfold bucket_desc_device_asc.
  intros [L1|[E1 S1]] [L2|[E2 S2]]; try (left; lia).
  right. split; [lia|]. eauto using string_leb_trans.
Qed.

Lemma insert_row_elem (x y : AggRow) (l : list AggRow) :
  y ∈ Sql.insert_row x l → y = x ∨ y ∈ l.
Proof.
  induction l as [|z l IH]; simpl.
  - intros ->%list_elem_of_singleton. by left.
  - destruct (Sql.order_by x z).
    + rewrite elem_of_cons. tauto.
    + rewrite !elem_of_cons. intros [->|Hy]; [tauto|]. destruct (IH Hy); tauto.
Qed.

Lemma insert_row_sorted (x : AggRow) (l : list AggRow) :
  StronglySorted bucket_desc_device_asc l →
  StronglySorted bucket_desc_device_asc (Sql.insert_row x l).
Proof.
  induction 1 as [|z l Hl IH Hz]; simpl.
  - repeat constructor.
  - destruct (Sql.order_by x z) eqn:O.
    + apply order_by_spec in O. constructor; [by constructor|].
      constructor; [done|].
      eapply Forall_impl; [exact Hz|]. intros y Hy. eauto using order_trans.
    + assert (bucket_desc_device_asc z x) as Hzx.
      { destruct (order_total x z) as [Hxz|]; [|done].
        apply order_by_spec in Hxz. congruence. }
      constructor; [done|].
      apply Forall_forall. intros y Hy.
      apply insert_row_elem in Hy as [->|Hy]; [done|].
      rewrite Forall_forall in Hz. by apply Hz.
Qed.

Lemma sort_rows_sorted (l : list AggRow) :
  StronglySorted bucket_desc_device_asc (Sql.sort_rows l).
Proof.
  induction l as [|x l IH]; simpl; [constructor | by apply insert_row_sorted].
Qed.

Lemma insert_row_perm (x : AggRow) (l : list AggRow) :
  Permutation (x :: l) (Sql.insert_row x l).
Proof.
  induction l as [|y l IH]; simpl; [done|].
  destruct (Sql.order_by x y); [done|].
  rewrite perm_swap. by constructor.
Qed.

Lemma sort_rows_perm (l : list AggRow) : Permutation l (Sql.sort_rows l).
Proof.
  induction l as [|x l IH]; simpl; [done|].
  rewrite <- insert_row_perm. by constructor.
Qed.

Lemma query_sorted (now : Z) (table : list Reading) :
  StronglySorted bucket_desc_device_asc (Sql.query now table).
Proof. apply sort_rows_sorted. Qed.

(** ** What one call of a task does *)

Lemma emitted_refl (w : World) : emitted w w [].
Proof. unfold emitted. by rewrite app_nil_r. Qed.

Lemma emitted_trans (w1 w2 w3 : World) (e1 e2 : list Event) :
  emitted w1 w2 e1 → emitted w2 w3 e2 → emitted w1 w3 (e1 ++ e2)%list.
Proof. unfold emitted. intros E1 E2. by rewrite E2, E1, app_assoc. Qed.

Lemma falsy_false (o : option string) :
  Py.falsy o = false → ∃ b, o = Some b ∧ b ≠ "".
Proof. destruct o as [[|c s]|]; simpl; try done. intros _. by eexists. Qed.

Section TaskFacts.
Context `{Collaborators}.

Lemma extract_inv (ds : string) (w w' : World) (r : Exn + string) :
  extract_timescale_data ds w = (r, w') →
  env w' = env w ∧ xcom w' = xcom w ∧ clock w' = clock w ∧ s3 w' = s3 w ∧
  (∃ evs, emitted w w' evs ∧
          Forall (λ e, is_attempt e = false ∧ is_remove e = false ∧ is_s3_io e = false) evs) ∧
  match r with
  | inl e => fs w' = fs w ∨ ∃ junk, fs w' = <[csv_path ds := junk]> (fs w)
  | inr p =>
      p = csv_path ds ∧
      ∃ c table, table_at c (clock w) = Some table ∧
        fs w' = <[csv_path ds := to_csv (Sql.query (clock w) table)]> (fs w)
  end.
Proof.
  unfold extract_timescale_data. intros E. unfold Py.write_file in E. run_cases E.
  all: repeat split; try done; try (trace_shape; by repeat constructor).
  all: eauto.
Qed.

Lemma convert_inv (ds : string) (w w' : World) (r : Exn + string) :
  convert_csv_to_parquet ds w = (r, w') →
  env w' = env w ∧ xcom w' = xcom w ∧ clock w' = clock w ∧ s3 w' = s3 w ∧
  ∃ evs, emitted w w' evs ∧
    Forall (λ e, is_attempt e = false ∧ is_s3_io e = false) evs ∧
    match r with
    | inl e =>
        Forall (λ e, is_remove e = false) evs ∧
        (fs w' = fs w ∨
         ∃ f junk, xcom w !! "extract_timescale_data" = Some (XStr f) ∧
                   fs w' = <[parquet_path f := junk]> (fs w))
    | inr p =>
        ∃ f text df table bytes,
          xcom w !! "extract_timescale_data" = Some (XStr f) ∧
          fs w !! f = Some text ∧ read_csv text = Some df ∧
          from_pandas df = Some table ∧ write_table table = Written bytes ∧
          p = parquet_path f ∧
          fs w' = delete f (<[p := bytes]> (fs w)) ∧
          evs = [Log ConvertStarting; FileRead f; Log (ReadCsv (frame_len df));
                 FileWrite p; Log (ParquetCreated p);
                 FileRemove f; Log (CleanedCsv f)]
    end.
Proof.
  unfold convert_csv_to_parquet. intros E. run_cases E.
  all: repeat split; try done; trace_shape.
  all: split; [by repeat constructor|].
  all: try (split; [by repeat constructor|]); eauto 10.
  eexists _, _, _, _, _. repeat split; eauto.
Qed.

Lemma upload_inv (ds : string) (w w' : World) (r : Exn + UploadDetails) :
  upload_to_s3 ds w = (r, w') →
  env w' = env w ∧ xcom w' = xcom w ∧ clock w' = clock w ∧
  ∃ evs, emitted w w' evs ∧ Forall (λ e, is_attempt e = false) evs ∧
    match r with
    | inl e =>
        fs w' = fs w ∧ Forall (λ e, is_remove e = false) evs ∧
        (s3 w' = s3 w ∨
         ∃ pf bytes b,
           xcom w !! "convert_to_parquet" = Some (XStr pf) ∧
           fs w !! pf = Some bytes ∧
           env w !! "AWS_S3_BUCKET" = Some b ∧ b ≠ "" ∧
           s3_accepts (clock w) b (s3_key ds pf) = true ∧
           e = OSError ∧
           (getsize_ok (clock w) pf = false ∨ remove_ok (clock w) pf = false) ∧
           s3 w' = <[(b, s3_key ds pf) := bytes]> (s3 w))
    | inr d =>
        ∃ pf bytes b,
          xcom w !! "convert_to_parquet" = Some (XStr pf) ∧
          fs w !! pf = Some bytes ∧
          env w !! "AWS_S3_BUCKET" = Some b ∧ b ≠ "" ∧
          profile_ok (default "qa-in" (env w !! "AWS_PROFILE")) = true ∧
          s3_accepts (clock w) b (s3_key ds pf) = true ∧
          d = {| bucket := b; key := s3_key ds pf;
                 file_size_bytes := String.length bytes; upload_time := clock w |} ∧
          fs w' = delete pf (fs w) ∧
          s3 w' = <[(b, s3_key ds pf) := bytes]> (s3 w) ∧
          evs = [Log UploadStarting;
                 BotoSession (default "qa-in" (env w !! "AWS_PROFILE")); S3Client;
                 S3UploadFile pf b (s3_key ds pf); FileRead pf;
                 Log (Uploaded b (s3_key ds pf));
                 FileRemove pf; Log (CleanedParquet pf)]
    end.
Proof.
  unfold upload_to_s3. intros E. run_cases E.
  all: repeat split; try done; trace_shape.
  all: split; [by repeat constructor|].
  all: try (split; [done|]; split; [by repeat constructor|]; by left).
  all: match goal with F : Py.falsy _ = false |- _ =>
         apply falsy_false in F as (b & Eb & Hb) end.
  all: rewrite Eb in *; simpl in *.
  - split; [done|]. split; [by repeat constructor|]. right.
    eexists _, _, _. repeat split; eauto.
  - split; [done|]. split; [by repeat constructor|]. right.
    eexists _, _, _. repeat split; eauto.
  - eexists _, _, _. repeat split; eauto.
Qed.

Lemma notify_inv (ds : string) (w w' : World) (r : Exn + unit) :
  notify_completion ds w = (r, w') →
  fs w' = fs w ∧ env w' = env w ∧ xcom w' = xcom w ∧ clock w' = clock w ∧
  s3 w' = s3 w ∧
  ∃ evs, emitted w w' evs ∧
    match xcom w !! "upload_to_s3" with
    | Some (XDict d) =>
        r = inr tt ∧
        evs = [Log CompletedBanner; Log (ExecutionDate ds);
               Log (S3Location (bucket d) (key d));
               Log (FileSize (file_size_bytes d));
               Log (UploadTime (upload_time d)); Log CompletedRule]
    | _ => r = inl TypeError ∧ evs = [Log CompletedBanner; Log (ExecutionDate ds)]
    end.
Proof.
  unfold notify_completion. intros E. run_cases E.
  all: repeat split; try done; by trace_shape.
Qed.

End TaskFacts.

Lemma upload_staged_unset `{Collaborators} (ds : string) (w w' : World)
    (r : Exn + UploadDetails) (pf bytes : string) :
  upload_to_s3 ds w = (r, w') →
  staged "convert_to_parquet" w pf bytes →
  Py.falsy (env w !! "AWS_S3_BUCKET") = true →
  r = inl (ValueError "AWS_S3_BUCKET environment variable not set").
Proof.
  intros U (X & Hpf & F) B. revert U. unfold upload_to_s3. unfold_m. simpl.
  rewrite X. destruct pf; [done|]. simpl.
  repeat (rewrite ?F, ?B; simpl). by intros [= <- _].
Qed.

(** ** What a task instance and a run do *)

Lemma attempt_log_app (a b : list Event) :
  attempt_log (a ++ b) = (attempt_log a ++ attempt_log b)%list.
Proof. apply omap_app. Qed.

Lemma attempt_log_quiet (evs : list Event) :
  Forall (λ e, is_attempt e = false) evs → attempt_log evs = [].
Proof.
  induction 1 as [|e evs He _ IH]; [done|].
  destruct e; try done; exact IH.
Qed.

Section RunFacts.
Context `{Collaborators}.

Lemma attempts_inv (left : nat) : ∀ n t ds w st w',
  attempts left n t ds w = (st, w') →
  match st with
  | TaskSuccess m =>
      ∃ k wl v w1, (k ≤ left)%nat ∧ failed_tries t ds k n w wl ∧
        python_callable t ds (attempt_start t m wl) = (inr v, w1) ∧
        m = (n + k)%nat ∧ w' = xcom_push t v w1
  | TaskFailed e m =>
      ∃ wl, failed_tries t ds left n w wl ∧
        python_callable t ds (attempt_start t m wl) = (inl e, w') ∧
        m = (n + left)%nat
  end.
Proof.
  induction left as [|left IH]; intros n t ds w st w'; simpl;
    destruct (python_callable t ds (attempt_start t n w)) as [[e|v] w1] eqn:E.
  - intros [= <- <-]. exists w. rewrite Nat.add_0_r. eauto using failed_none.
  - intros [= <- <-]. exists 0%nat, w, v, w1. rewrite Nat.add_0_r.
    eauto 10 using failed_none.
  - intros A. apply IH in A. destruct st as [m|e' m].
    + destruct A as (k & wl & v & w2 & Hk & F & C & -> & ->).
      exists (S k), wl, v, w2. repeat split; eauto using failed_more; lia.
    + destruct A as (wl & F & C & ->).
      exists wl. repeat split; eauto using failed_more; lia.
  - intros [= <- <-]. exists 0%nat, w, v, w1. rewrite Nat.add_0_r.
    repeat split; eauto using failed_none; lia.
Qed.

Lemma callable_inv (t : TaskId) (ds : string) (w w' : World) (r : Exn + option XVal) :
  python_callable t ds w = (r, w') →
  env w' = env w ∧ xcom w' = xcom w ∧ clock w' = clock w ∧
  (∃ evs, emitted w w' evs ∧ attempt_log evs = []) ∧
  (t ≠ upload_task → s3 w' = s3 w) ∧
  match r with
  | inl _ => t = upload_task ∨ t = notify_task → fs w' = fs w
  | inr _ => True
  end.
Proof.
  unfold python_callable, mbind, M_bind, mret, M_ret. destruct t.
  - destruct (extract_timescale_data ds w) as [[e|p] w1] eqn:E; intros [= <- <-];
      apply extract_inv in E as (? & ? & ? & ? & (evs & ? & Q) & ?);
      (repeat split; try done; try (by intros [|]));
      exists evs; (split; [done|]); apply attempt_log_quiet;
      (eapply Forall_impl; [exact Q|]); simpl; tauto.
  - destruct (convert_csv_to_parquet ds w) as [[e|p] w1] eqn:E; intros [= <- <-];
      apply convert_inv in E as (? & ? & ? & ? & evs & ? & Q & ?);
      (repeat split; try done; try (by intros [|]));
      exists evs; (split; [done|]); apply attempt_log_quiet;
      (eapply Forall_impl; [exact Q|]); simpl; tauto.
  - destruct (upload_to_s3 ds w) as [[e|p] w1] eqn:E; intros [= <- <-];
      apply upload_inv in E as (? & ? & ? & evs & ? & Q & R);
      (repeat split; try done; try tauto);
      exists evs; (split; [done|]); by apply attempt_log_quiet.
  - destruct (notify_completion ds w) as [[e|p] w1] eqn:E; intros [= <- <-];
      apply notify_inv in E as (? & ? & ? & ? & ? & evs & ? & R);
      (repeat split; try done);
      exists evs; (split; [done|]);
      destruct (xcom w !! "upload_to_s3") as [[|]|]; by destruct R as [_ ->].
Qed.

Lemma failed_tries_inv (t : TaskId) (ds : string) (k n : nat) (w w' : World) :
  failed_tries t ds k n w w' →
  env w' = env w ∧ (t ≠ upload_task → s3 w' = s3 w) ∧
  clock w' = clock w + Z.of_nat k * retry_delay default_args ∧
  (∀ x, x ≠ task_id t → xcom w' !! x = xcom w !! x) ∧
  (t = upload_task ∨ t = notify_task → fs w' = fs w) ∧
  ∃ evs, emitted w w' evs ∧ attempt_log evs = (λ i, (t, i)) <$> seq n k.
Proof.
  induction 1 as [n w|k n w e w1 w' C _ (IHenv & IHs3 & IHclock & IHx & IHfs & evs & IHev & IHlog)].
  - repeat split; try done; try lia. exists []. split; [apply emitted_refl|done].
  - apply callable_inv in C as (Cenv & Cx & Cclock & (evs1 & Cev & Clog) & Cs3 & Cfs).
    simpl in *. repeat split.
    + congruence.
    + intros Ht. rewrite IHs3, Cs3 by done. done.
    + rewrite IHclock, Cclock. lia.
    + intros x Hx. rewrite IHx, Cx by done. by apply lookup_delete_ne.
    + intros Ht. rewrite IHfs, Cfs by done. done.
    + exists ((TaskAttempt t n :: evs1) ++ evs)%list. split.
      * unfold emitted in *. simpl in *. rewrite IHev, Cev.
        by rewrite <- !app_assoc.
      * rewrite attempt_log_app, IHlog.
        change (attempt_log (TaskAttempt t n :: evs1)) with ((t, n) :: attempt_log evs1).
        by rewrite Clog.
Qed.

(** The last attempt of a task instance, after [k] that raised. *)
Lemma last_attempt_inv (t : TaskId) (ds : string) (k n m : nat) (w wl w1 : World)
    (r : Exn + option XVal) :
  failed_tries t ds k n w wl →
  python_callable t ds (attempt_start t m wl) = (r, w1) →
  m = (n + k)%nat →
  env w1 = env w ∧
  clock w1 = clock w + Z.of_nat k * retry_delay default_args ∧
  (∀ x, x ≠ task_id t → xcom w1 !! x = xcom w !! x) ∧
  xcom w1 !! task_id t = None ∧
  (∃ evs, emitted w w1 evs ∧ attempt_log evs = (λ i, (t, i)) <$> seq n (S k)) ∧
  (t ≠ upload_task → s3 w1 = s3 w) ∧
  match r with
  | inl _ => t = upload_task ∨ t = notify_task → fs w1 = fs w
  | inr _ => True
  end.
Proof.
  intros F C ->.
  apply failed_tries_inv in F as (Fenv & Fs3 & Fclock & Fx & Ffs & evs & Fev & Flog).
  apply callable_inv in C as (Cenv & Cx & Cclock & (evs1 & Cev & Clog) & Cs3 & Cr).
  simpl in * |-. split; [|split; [|split; [|split; [|split; [|split]]]]].
  - congruence.
  - rewrite Cclock. exact Fclock.
  - intros x Hx. rewrite Cx, lookup_delete_ne by done. by apply Fx.
  - rewrite Cx. apply lookup_delete_eq.
  - exists (evs ++ TaskAttempt t (n + k) :: evs1)%list. split.
    + unfold emitted in *. simpl in *. rewrite Cev, Fev. by rewrite <- !app_assoc.
    + rewrite attempt_log_app, Flog.
      change (attempt_log (TaskAttempt t (n + k) :: evs1))
        with ((t, (n + k)%nat) :: attempt_log evs1).
      rewrite Clog, seq_S, fmap_app. done.
  - intros Ht. rewrite Cs3 by done. by apply Fs3.
  - destruct r; [|done]. intros Ht. rewrite Cr by done. by apply Ffs.
Qed.

Lemma run_task_failed (t : TaskId) (ds : string) (w w' : World) (e : Exn) (m : nat) :
  run_task t ds w = (TaskFailed e m, w') →
  m = 3%nat ∧ env w' = env w ∧ (t ≠ upload_task → s3 w' = s3 w) ∧
  clock w' = clock w + 2 * retry_delay default_args ∧
  (t = upload_task ∨ t = notify_task → fs w' = fs w) ∧
  (∀ x, x ≠ task_id t → xcom w' !! x = xcom w !! x) ∧
  xcom w' !! task_id t = None ∧
  ∃ evs, emitted w w' evs ∧ attempt_log evs = [(t, 1%nat); (t, 2%nat); (t, 3%nat)].
Proof.
  unfold run_task. intros A.
  apply attempts_inv in A as (wl & F & C & ->).
  destruct (last_attempt_inv t ds _ _ _ w wl w' _ F C eq_refl)
    as (Henv & Hclock & Hx & Hnone & Hev & Hs3 & Hfs).
  repeat split; try done.
Qed.

Lemma run_task_attempt_log (t : TaskId) (ds : string) (w w' : World) (st : TaskState) :
  run_task t ds w = (st, w') →
  ∃ evs k, emitted w w' evs ∧ attempt_log evs = (λ i, (t, i)) <$> seq 1 k.
Proof.
  unfold run_task. intros A. apply attempts_inv in A. destruct st as [m|e m].
  - destruct A as (k & wl & v & w1 & _ & F & C & Hm & ->).
    destruct (last_attempt_inv t ds _ _ _ w wl w1 _ F C Hm)
      as (_ & _ & _ & _ & (evs & Ev & L) & _).
    exists evs, (S k). split; [|done]. by destruct v.
  - destruct A as (wl & F & C & Hm).
    destruct (last_attempt_inv t ds _ _ _ w wl w' _ F C Hm)
      as (_ & _ & _ & _ & (evs & Ev & L) & _).
    by exists evs, 3%nat.
Qed.

Lemma run_task_success_inv (t : TaskId) (ds : string) (w w' : World) (m : nat) :
  run_task t ds w = (TaskSuccess m, w') →
  ∃ k wl v w1,
    (k ≤ 2)%nat ∧ m = S k ∧
    env wl = env w ∧ (t ≠ upload_task → s3 wl = s3 w) ∧
    clock wl = clock w + Z.of_nat k * retry_delay default_args ∧
    (∀ x, x ≠ task_id t → xcom wl !! x = xcom w !! x) ∧
    (t = upload_task ∨ t = notify_task → fs wl = fs w) ∧
    (∃ evs, emitted w wl evs) ∧
    failed_tries t ds k 1 w wl ∧
    python_callable t ds (attempt_start t m wl) = (inr v, w1) ∧
    w' = xcom_push t v w1.
Proof.
  unfold run_task. intros A.
  apply attempts_inv in A as (k & wl & v & w1 & Hk & F & C & -> & ->).
  pose proof F as F'.
  apply failed_tries_inv in F' as (Fenv & Fs3 & Fclock & Fx & Ffs & evs & Fev & _).
  exists k, wl, v, w1. repeat split; eauto.
Qed.

Lemma task_id_inj (t t' : TaskId) : task_id t = task_id t' → t = t'.
Proof. by destruct t, t'. Qed.

(** *** Tries of the Uploader that raised *)

Lemma at_most_put_trans (ds : string) (w w1 : World) (o : gmap (string * string) string) :
  env w1 = env w → fs w1 = fs w →
  xcom w1 !! "convert_to_parquet" = xcom w !! "convert_to_parquet" →
  at_most_put ds w (s3 w1) → at_most_put ds w1 o → at_most_put ds w o.
Proof.
  intros Henv Hfs Hx [A|A] [B|B].
  - left. congruence.
  - destruct B as (pf & bytes & b & now & X & F & E & Hb & Bad & ->).
    right. exists pf, bytes, b, now. rewrite <- Hx, <- Hfs, <- Henv, <- A. done.
  - rewrite <- B in A. by right.
  - destruct A as (pf & bytes & b & now & X & F & E & Hb & Bad & A).
    destruct B as (pf' & bytes' & b' & now' & X' & F' & E' & Hb' & Bad' & ->).
    rewrite Hx, X in X'. injection X' as <-.
    rewrite Hfs, F in F'. injection F' as <-.
    rewrite Henv, E in E'. injection E' as <-.
    right. exists pf, bytes, b, now. rewrite A, insert_insert_eq. done.
Qed.

Lemma upload_attempt_failed (ds : string) (n : nat) (w w1 : World) (e : Exn) :
  python_callable upload_task ds (attempt_start upload_task n w) = (inl e, w1) →
  env w1 = env w ∧ fs w1 = fs w ∧
  xcom w1 !! "convert_to_parquet" = xcom w !! "convert_to_parquet" ∧
  at_most_put ds w (s3 w1).
Proof.
  unfold python_callable, mbind, M_bind, mret, M_ret.
  destruct (upload_to_s3 _ _) as [[e'|d] w2] eqn:U; [|done]. intros [= <- <-].
  apply upload_inv in U as (Uenv & Ux & _ & evs & _ & _ & Ufs & _ & Us3).
  simpl in *. repeat split; try done.
  - rewrite Ux. by apply lookup_delete_ne.
  - destruct Us3 as [Us3|(pf & bytes & b & X & F & B & Hb & _ & _ & Bad & Us3)]; [by left|].
    rewrite lookup_delete_ne in X by done.
    right. by exists pf, bytes, b, (clock w).
Qed.

Lemma failed_upload_tries (ds : string) (k n : nat) (w wl : World) :
  failed_tries upload_task ds k n w wl → at_most_put ds w (s3 wl).
Proof.
  induction 1 as [n w|k n w e w1 w' C _ IH]; [by left|].
  apply upload_attempt_failed in C as (Cenv & Cfs & Cx & Cs3).
  by apply (at_most_put_trans ds w (backoff w1)).
Qed.

(** *** Tries of the Extractor that raised *)

Lemma at_most_csv_trans (ds : string) (w w1 : World) (f : gmap string string) :
  at_most_csv ds w (fs w1) → at_most_csv ds w1 f → at_most_csv ds w f.
Proof.
  intros [A|(junk & A)] [B|(junk' & B)]; rewrite B, A.
  - by left.
  - right. by exists junk'.
  - right. by exists junk.
  - right. exists junk'. by rewrite insert_insert_eq.
Qed.

Lemma extract_attempt_failed (ds : string) (n : nat) (w w1 : World) (e : Exn) :
  python_callable extract_task ds (attempt_start extract_task n w) = (inl e, w1) →
  at_most_csv ds w (fs w1) ∧
  ((∀ c now, table_at c now = None) → fs w1 = fs w).
Proof.
  unfold python_callable, mbind, M_bind, mret, M_ret.
  destruct (extract_timescale_data _ _) as [[e'|d] w2] eqn:X; [|done]. intros [= <- <-].
  split.
  - by apply extract_inv in X as (_ & _ & _ & _ & _ & R).
  - intros Down. revert X. unfold extract_timescale_data. intros X. run_cases X; try done.
    all: by rewrite Down in *.
Qed.

Lemma failed_extract_tries (ds : string) (k n : nat) (w wl : World) :
  failed_tries extract_task ds k n w wl →
  at_most_csv ds w (fs wl) ∧
  ((∀ c now, table_at c now = None) → fs wl = fs w).
Proof.
  induction 1 as [n w|k n w e w1 w' C _ [IH IHdown]]; [split; [by left|done]|].
  apply extract_attempt_failed in C as (Cfs & Cdown). split.
  - by apply (at_most_csv_trans ds w (backoff w1)).
  - intros Down. rewrite IHdown, <- Cdown by done. done.
Qed.

Lemma extract_task_failed (ds : string) (w w' : World) (e : Exn) (m : nat) :
  run_task extract_task ds w = (TaskFailed e m, w') →
  at_most_csv ds w (fs w') ∧
  ((∀ c now, table_at c now = None) → fs w' = fs w).
Proof.
  unfold run_task. intros A.
  apply attempts_inv in A as (wl & F & C & _).
  apply failed_extract_tries in F as (Ffs & Fdown).
  apply extract_attempt_failed in C as (Cfs & Cdown). split.
  - by apply (at_most_csv_trans ds w wl).
  - intros Down. rewrite Cdown, Fdown by done. done.
Qed.

Lemma extract_task_success (ds : string) (w w' : World) (m : nat) :
  run_task extract_task ds w = (TaskSuccess m, w') →
  env w' = env w ∧ s3 w' = s3 w ∧
  (∀ x, x ≠ "extract_timescale_data" → xcom w' !! x = xcom w !! x) ∧
  xcom w' !! "extract_timescale_data" = Some (XStr (csv_path ds)).
Proof.
  intros A.
  apply run_task_success_inv in A
    as (k & wl & v & w1 & _ & _ & Henv & Hs3 & _ & Hx & _ & _ & _ & C & ->).
  unfold python_callable, mbind, M_bind, mret, M_ret in C.
  destruct (extract_timescale_data _ _) as [[e|p] w2] eqn:E; [done|].
  injection C as <- <-.
  apply extract_inv in E as (Eenv & Ex & _ & Es3 & _ & -> & _).
  simpl in *. repeat split.
  - congruence.
  - rewrite Es3. by apply Hs3.
  - intros x Hne. rewrite lookup_insert_ne, Ex, lookup_delete_ne by done. by apply Hx.
  - apply lookup_insert_eq.
Qed.

Lemma convert_task_success (ds f : string) (w w' : World) (m : nat) :
  run_task convert_task ds w = (TaskSuccess m, w') →
  xcom w !! "extract_timescale_data" = Some (XStr f) →
  env w' = env w ∧ s3 w' = s3 w ∧
  (∀ x, x ≠ "convert_to_parquet" → xcom w' !! x = xcom w !! x) ∧
  xcom w' !! "convert_to_parquet" = Some (XStr (parquet_path f)).
Proof.
  intros A X.
  apply run_task_success_inv in A
    as (k & wl & v & w1 & _ & _ & Henv & Hs3 & _ & Hx & _ & _ & _ & C & ->).
  unfold python_callable, mbind, M_bind, mret, M_ret in C.
  destruct (convert_csv_to_parquet _ _) as [[e|p] w2] eqn:E; [done|].
  injection C as <- <-.
  apply convert_inv in E as (Eenv & Ex & _ & Es3 & evs & _ & _ & R).
  destruct R as (f' & text & df & table & bytes & Xf & _ & _ & _ & _ & -> & _ & _).
  simpl in *. rewrite lookup_delete_ne, Hx, X in Xf by done. injection Xf as <-.
  repeat split.
  - congruence.
  - rewrite Es3. by apply Hs3.
  - intros x Hne. rewrite lookup_insert_ne, Ex, lookup_delete_ne by done. by apply Hx.
  - apply lookup_insert_eq.
Qed.

Lemma upload_task_success (ds : string) (w w' : World) (m : nat) :
  run_task upload_task ds w = (TaskSuccess m, w') →
  ∃ pf b bytes k wl,
    xcom w !! "convert_to_parquet" = Some (XStr pf) ∧
    (k ≤ 2)%nat ∧ m = S k ∧
    env w !! "AWS_S3_BUCKET" = Some b ∧ b ≠ "" ∧ fs w !! pf = Some bytes ∧
    env w' = env w ∧
    (∀ x, x ≠ "upload_to_s3" → xcom w' !! x = xcom w !! x) ∧
    xcom w' !! "upload_to_s3"
    = Some (XDict {| bucket := b; key := s3_key ds pf;
                     file_size_bytes := String.length bytes;
                     upload_time := clock w + Z.of_nat k * retry_delay default_args |}) ∧
    s3 w' = <[(b, s3_key ds pf) := bytes]> (s3 w) ∧
    fs w' = delete pf (fs w) ∧
    trace w' = (trace wl ++
                [TaskAttempt upload_task m; Log UploadStarting;
                 BotoSession (default "qa-in" (env w !! "AWS_PROFILE")); S3Client;
                 S3UploadFile pf b (s3_key ds pf); FileRead pf;
                 Log (Uploaded b (s3_key ds pf));
                 FileRemove pf; Log (CleanedParquet pf)])%list.
Proof.
  intros A.
  apply run_task_success_inv in A
    as (k & wl & v & w1 & Hk & -> & Henv & _ & Hclock & Hx & Hfs & _ & Tries & C & ->).
  apply failed_upload_tries in Tries.
  unfold python_callable, mbind, M_bind, mret, M_ret in C.
  destruct (upload_to_s3 _ _) as [[e|d] w2] eqn:E; [done|].
  injection C as <- <-.
  apply upload_inv in E as (Eenv & Ex & _ & evs & Ev & _ & R).
  destruct R as (pf & bytes & b & Xf & F & B & Hb & _ & _ & -> & Ffs & Fs3 & ->).
  simpl in *. rewrite lookup_delete_ne, Hx in Xf by done.
  rewrite Hfs in * by (by left). rewrite Henv in *.
  exists pf, b, bytes, k, wl. repeat split; try done.
  - intros x Hne. rewrite lookup_insert_ne, Ex, lookup_delete_ne by done. by apply Hx.
  - rewrite lookup_insert_eq, Hclock. done.
  - rewrite Fs3.
    destruct Tries as [->|(pf' & bytes' & b' & now & X' & F' & B' & _ & _ & ->)]; [done|].
    rewrite Xf in X'. injection X' as <-.
    rewrite F in F'. injection F' as <-.
    rewrite B in B'. injection B' as <-.
    apply insert_insert_eq.
  - unfold emitted in Ev. simpl in Ev. rewrite Ev. by rewrite <- app_assoc.
Qed.

Lemma upload_task_failed (ds : string) (w w' : World) (e : Exn) (m : nat) :
  run_task upload_task ds w = (TaskFailed e m, w') →
  fs w' = fs w ∧ at_most_put ds w (s3 w').
Proof.
  unfold run_task. intros A.
  apply attempts_inv in A as (wl & F & C & _).
  pose proof F as F'.
  apply failed_tries_inv in F' as (Fenv & _ & _ & Fx & Ffs & _).
  apply failed_upload_tries in F.
  apply upload_attempt_failed in C as (Cenv & Cfs & Cx & Cs3).
  split.
  - rewrite Cfs. apply Ffs. by left.
  - apply (at_most_put_trans ds w wl); try done.
    + apply Ffs. by left.
    + by apply Fx.
Qed.

Lemma notify_task_runs (ds : string) (w : World) (d : UploadDetails) :
  xcom w !! "upload_to_s3" = Some (XDict d) →
  ∃ w', run_task notify_task ds w = (TaskSuccess 1, w') ∧
    fs w' = fs w ∧ env w' = env w ∧ s3 w' = s3 w ∧ clock w' = clock w ∧
    (∀ x, x ≠ "notify_completion" → xcom w' !! x = xcom w !! x) ∧
    trace w' = (trace w ++
                [TaskAttempt notify_task 1; Log CompletedBanner; Log (ExecutionDate ds);
                 Log (S3Location (bucket d) (key d));
                 Log (FileSize (file_size_bytes d));
                 Log (UploadTime (upload_time d)); Log CompletedRule])%list.
Proof.
  intros X. unfold run_task, attempts, python_callable, notify_completion.
  unfold_m. simpl. rewrite lookup_delete_ne, X by done. simpl.
  eexists. split; [reflexivity|]. simpl. repeat split; try done.
  - intros x Hne. by apply lookup_delete_ne.
  - by rewrite <- !app_assoc.
Qed.

Lemma run_dag_inv (ds : string) (w w' : World) (st : RunState) :
  run_dag ds w = (st, w') →
  env w' = env w ∧
  match st with
  | Failed t e m =>
      m = 3%nat ∧ t ≠ notify_task ∧
      (t = upload_task → xcom w' !! "upload_to_s3" = None) ∧
      (t ≠ upload_task → xcom w' !! "upload_to_s3" = xcom w !! "upload_to_s3") ∧
      (s3 w' = s3 w ∨
       ∃ b bytes now,
         t = upload_task ∧
         env w !! "AWS_S3_BUCKET" = Some b ∧ b ≠ "" ∧
         (getsize_ok now (parquet_path (csv_path ds)) = false ∨
          remove_ok now (parquet_path (csv_path ds)) = false) ∧
         fs w' !! parquet_path (csv_path ds) = Some bytes ∧
         s3 w' = <[(b, run_key ds) := bytes]> (s3 w))
  | Completed =>
      ∃ b bytes t,
        env w !! "AWS_S3_BUCKET" = Some b ∧
        s3 w' = <[(b, run_key ds) := bytes]> (s3 w) ∧
        xcom w' !! "upload_to_s3"
        = Some (XDict {| bucket := b; key := run_key ds;
                         file_size_bytes := String.length bytes; upload_time := t |})
  end.
Proof.
  unfold run_dag, dag_tasks, run_chain.
  destruct (run_task extract_task ds w) as [[m1|e1 m1] w1] eqn:E1.
  2:{ intros [= <- <-].
      apply run_task_failed in E1 as (-> & Henv & Hs3 & _ & _ & Hx & _ & _).
      repeat split; try done; [intros _; by apply Hx|left; by apply Hs3]. }
  apply extract_task_success in E1 as (Henv1 & Hs31 & Hx1 & X1).
  destruct (run_task convert_task ds w1) as [[m2|e2 m2] w2] eqn:E2.
  2:{ intros [= <- <-].
      apply run_task_failed in E2 as (-> & Henv & Hs3 & _ & _ & Hx & _ & _).
      repeat split; try done; try congruence.
      - intros _. rewrite Hx, Hx1 by done. done.
      - left. rewrite Hs3 by done. done. }
  apply (convert_task_success ds (csv_path ds)) in E2 as (Henv2 & Hs32 & Hx2 & X2); [|done].
  destruct (run_task upload_task ds w2) as [[m3|e3 m3] w3] eqn:E3.
  2:{ intros [= <- <-]. pose proof E3 as E3'.
      apply run_task_failed in E3 as (-> & Henv & _ & _ & _ & _ & Hnone & _).
      apply upload_task_failed in E3' as (Hfs & Put).
      repeat split; try done; try congruence.
      destruct Put as [Put|(pf & bytes & b & now & X & F & B & Hb & Bad & Put)].
      - left. congruence.
      - rewrite X2 in X. injection X as <-.
        right. exists b, bytes, now. repeat split; try done; try congruence.
        unfold run_key. congruence. }
  apply upload_task_success in E3
    as (pf & b & bytes & k & wl & X & _ & _ & B & _ & _ & Henv3 & Hx3 & X3 & Hs33 & _ & _).
  rewrite X2 in X. injection X as <-.
  destruct (notify_task_runs ds w3 _ X3) as (w4 & -> & _ & Henv4 & Hs34 & _ & Hx4 & _).
  intros [= <- <-]. split; [congruence|].
  exists b, bytes, (clock w2 + Z.of_nat k * retry_delay default_args).
  repeat split.
  - congruence.
  - rewrite Hs34, Hs33. unfold run_key. congruence.
  - rewrite Hx4 by done. exact X3.
Qed.

End RunFacts.

(** ** A consumer whose input is gone *)

Lemma pair_of_fst {A B} (p : A * B) (a : A) : p.1 = a → p = (a, p.2).
Proof. intros <-. by destruct p. Qed.

Lemma input_missing_kept (t : TaskId) (w w' : World) :
  input_missing t w →
  fs w' = fs w →
  (∀ x, x ≠ task_id t → xcom w' !! x = xcom w !! x) →
  input_missing t w'.
Proof.
  intros (up & Hup & Hmiss) Hfs Hx. exists up. split; [done|].
  assert (xcom w' !! up = xcom w !! up) as ->.
  { apply Hx. by destruct Hup as [[-> ->]|[-> ->]]. }
  by rewrite Hfs.
Qed.

Section MissingInput.
Context `{Collaborators}.

Lemma callable_input_missing (t : TaskId) (ds : string) (w : World) :
input_missing t w →
∃ p l, python_callable t ds w
       = (inl (FileNotFoundError p), with_trace (trace w ++ [Log l])%list w).
Proof.
intros (up & [[-> ->]|[-> ->]] & [X|(f & X & F)]);
  unfold python_callable, convert_csv_to_parquet, upload_to_s3; unfold_m; simpl;
  rewrite X; simpl; try (by eexists _, _);
  (destruct f; simpl; [by eexists _, _|]); rewrite F; simpl; by eexists _, _.
Qed.

Lemma attempts_input_missing (t : TaskId) (ds : string) (left : nat) : ∀ n w,
input_missing t w →
∃ p w', attempts left n t ds w = (TaskFailed (FileNotFoundError p) (n + left), w') ∧
        fs w' = fs w ∧ s3 w' = s3 w.
Proof.
induction left as [|left IH]; intros n w Miss; simpl.
- assert (input_missing t (attempt_start t n w)) as Miss'.
  { apply (input_missing_kept t w); [done|done|].
    intros x Hx. by apply lookup_delete_ne. }
  destruct (callable_input_missing t ds _ Miss') as (p & l & ->).
  exists p. eexists. rewrite Nat.add_0_r. by repeat split.
- assert (input_missing t (attempt_start t n w)) as Miss'.
  { apply (input_missing_kept t w); [done|done|].
    intros x Hx. by apply lookup_delete_ne. }
  destruct (callable_input_missing t ds _ Miss') as (p & l & ->).
  match goal with |- context [attempts left (S n) t ds ?w1] =>
    destruct (IH (S n) w1) as (p' & w' & -> & Hfs & Hs3) end.
  { apply (input_missing_kept t w); [done|done|].
    intros x Hx. by apply lookup_delete_ne. }
  exists p', w'. rewrite Nat.add_succ_r. by repeat split.
Qed.

End MissingInput.

(** * The claims *)

(** C2.  For a run date [d], the key the Uploader returns is
    [timescale_data/year=YYYY/month=MM/day=DD/<filename>], where [YYYY], [MM]
    and [DD] are the year, month and day of [d] in four, two and two decimal
    digits, zero-padded, and [<filename>] is the base name of the Parquet file
    it was handed; for 2025-03-07 the date part is
    [year=2025/month=03/day=07]. *)
Theorem partition_key_form `{Collaborators} (d : RunDate) (w w' : World)
    (details : UploadDetails) :
  valid_date d →
  upload_to_s3 (ds_of d) w = (inr details, w') →
  ∃ parquet_file,
    xcom w !! "convert_to_parquet" = Some (XStr parquet_file) ∧
    key details
    = "timescale_data/year=" ++ pad4 (year d) ++ "/month=" ++ pad2 (month d)
      ++ "/day=" ++ pad2 (day d) ++ "/" ++ PyStr.basename parquet_file ∧
    digits_value (pad4 (year d)) = year d ∧
    digits_value (pad2 (month d)) = month d ∧
    digits_value (pad2 (day d)) = day d ∧
    (d = {| year := 2025; month := 3; day := 7 |} →
     key details
     = "timescale_data/year=2025/month=03/day=07/" ++ PyStr.basename parquet_file).
Proof.
  intros (Hy & Hm & Hd) U.
  apply upload_inv in U as (_ & _ & _ & evs & _ & _ & pf & bytes & b & Hx & _ & _ & _ & _ & _ & -> & _).
  exists pf. split; [done|]. split; [reflexivity|].
  split; [apply pad4_value; lia|].
  split; [apply pad2_value; lia|].
  split; [apply pad2_value; lia|].
  by intros ->.
Qed.

Lemma partition_key_form_witness :
  valid_date Demo.date ∧
  ∃ parquet_file,
    (upload_to_s3 (H := Demo.libs) (ds_of Demo.date) Demo.converted).1 = inr Demo.details ∧
    xcom Demo.converted !! "convert_to_parquet" = Some (XStr parquet_file) ∧
    key Demo.details
    = "timescale_data/year=2025/month=03/day=07/" ++ PyStr.basename parquet_file.
Proof.
  assert (valid_date Demo.date) as V by (unfold valid_date; simpl; lia).
  split; [exact V|].
  assert ((upload_to_s3 (H := Demo.libs) (ds_of Demo.date) Demo.converted).1
          = inr Demo.details) as U by (vm_compute; reflexivity).
  destruct (partition_key_form (H := Demo.libs) Demo.date Demo.converted _ _ V
              (pair_of_fst _ _ U)) as (pf & X & _ & _ & _ & _ & K).
  exists pf. split; [exact U|]. split; [exact X|]. by apply K.
Defined.

(** C9.  Whatever the table holds and in whatever order its rows come, the
    rows the Extractor writes to the staging file are sorted by hour bucket,
    latest first, and by device identifier within a bucket: the staged file is
    the rendering of the query's result, and the result of the query over any
    permutation of the table is sorted in that order. *)
Theorem extractor_rows_sorted `{Collaborators} (ds : string) (w w' : World) (p : string) :
  extract_timescale_data ds w = (inr p, w') →
  ∃ c table,
    table_at c (clock w) = Some table ∧
    fs w' !! p = Some (to_csv (Sql.query (clock w) table)) ∧
    ∀ table', Permutation table table' →
      StronglySorted bucket_desc_device_asc (Sql.query (clock w) table').
Proof.
  intros E.
  apply extract_inv in E as (_ & _ & _ & _ & _ & -> & c & table & T & F).
  exists c, table. split; [done|]. split.
  - rewrite F. apply lookup_insert_eq.
  - intros table' _. apply query_sorted.
Qed.

Lemma extractor_rows_sorted_witness :
  (extract_timescale_data (H := Demo.libs) Demo.ds Demo.fresh).1 = inr (csv_path Demo.ds) ∧
  ∃ c table,
    table_at (Collaborators := Demo.libs) c (clock Demo.fresh) = Some table ∧
    ∀ table', Permutation table table' →
      StronglySorted bucket_desc_device_asc (Sql.query (clock Demo.fresh) table').
Proof.
  assert ((extract_timescale_data (H := Demo.libs) Demo.ds Demo.fresh).1
          = inr (csv_path Demo.ds)) as E by (vm_compute; reflexivity).
  split; [exact E|].
  destruct (extractor_rows_sorted (H := Demo.libs) _ _ _ _ (pair_of_fst _ _ E))
    as (c & table & T & _ & Sorted).
  by exists c, table.
Defined.

(** C3.  The Converter removes the CSV staged by the Extractor only after the
    Parquet file has been written in full: when it returns, the last things it
    did are the write of the whole Parquet file and then the removal; when it
    raises, for whatever reason, it has removed nothing and the CSV is as it
    was.  A missing CSV raises [FileNotFoundError] and one that cannot be
    parsed raises the parser's error. *)
Theorem converter_removes_after_write `{Collaborators} (ds ds' : string) (w w' : World)
    (r : Exn + string) :
  xcom w !! "extract_timescale_data" = Some (XStr (csv_path ds')) →
  convert_csv_to_parquet ds w = (r, w') →
  ∃ evs, emitted w w' evs ∧
    match r with
    | inl e =>
        fs w' !! csv_path ds' = fs w !! csv_path ds' ∧
        Forall (λ ev, is_remove ev = false) evs
    | inr p =>
        ∃ table bytes before,
          p = parquet_path (csv_path ds') ∧
          write_table table = Written bytes ∧
          fs w' !! p = Some bytes ∧
          fs w' !! csv_path ds' = None ∧
          evs = (before ++ [FileWrite p; Log (ParquetCreated p);
                            FileRemove (csv_path ds'); Log (CleanedCsv (csv_path ds'))])%list ∧
          Forall (λ ev, is_remove ev = false) before
    end ∧
    (fs w !! csv_path ds' = None → r = inl (FileNotFoundError (Some (csv_path ds')))) ∧
    (∀ text, fs w !! csv_path ds' = Some text → read_csv text = None → r = inl ParserError).
Proof.
  intros X C.
  pose proof C as C'.
  apply convert_inv in C' as (_ & _ & _ & _ & evs & Ev & _ & R).
  exists evs. split; [done|]. split; [|split].
  - destruct r as [e|p].
    + destruct R as [Q [F|(f & junk & Xf & F)]]; (split; [|done]); [by rewrite F|].
      rewrite X in Xf. injection Xf as <-.
      rewrite F. apply lookup_insert_ne, parquet_path_fresh.
    + destruct R as (f & text & df & table & bytes & Xf & Ff & _ & _ & Wr & -> & F & ->).
      rewrite X in Xf. injection Xf as <-.
      exists table, bytes, [Log ConvertStarting; FileRead (csv_path ds'); Log (ReadCsv (frame_len df))].
      repeat split; try done.
      * rewrite F, lookup_delete_ne by apply not_eq_sym, parquet_path_fresh.
        apply lookup_insert_eq.
      * rewrite F. apply lookup_delete_eq.
      * by repeat constructor.
  - intros Missing. revert C. unfold convert_csv_to_parquet. unfold_m. simpl.
    rewrite X. simpl. rewrite Missing. simpl. by intros [= <- _].
  - intros text Ft Bad. revert C. unfold convert_csv_to_parquet. unfold_m. simpl.
    repeat (rewrite ?X, ?Ft, ?Bad; simpl). by intros [= <- _].
Qed.

Lemma converter_removes_after_write_witness :
  xcom Demo.extracted !! "extract_timescale_data" = Some (XStr (csv_path Demo.ds)) ∧
  (convert_csv_to_parquet (H := Demo.libs_disk_full) Demo.ds Demo.extracted).1
  = inl ArrowIOError ∧
  fs (convert_csv_to_parquet (H := Demo.libs_disk_full) Demo.ds Demo.extracted).2
    !! csv_path Demo.ds
  = fs Demo.extracted !! csv_path Demo.ds.
Proof.
  assert (xcom Demo.extracted !! "extract_timescale_data" = Some (XStr (csv_path Demo.ds)))
    as X by (vm_compute; reflexivity).
  assert ((convert_csv_to_parquet (H := Demo.libs_disk_full) Demo.ds Demo.extracted).1
          = inl ArrowIOError) as C by (vm_compute; reflexivity).
  split; [exact X|]. split; [exact C|].
  destruct (converter_removes_after_write (H := Demo.libs_disk_full)
              Demo.ds Demo.ds Demo.extracted _ _ X (pair_of_fst _ _ C))
    as (evs & _ & (Kept & _) & _).
  exact Kept.
Defined.

(** C4, as stated, fails: the transfer goes through and the Uploader keeps
    the local file all the same.  [os.remove] comes after [upload_file] in
    the same [try]; when the system refuses the removal, the Uploader raises
    [OSError] with the object in the bucket, whole, the Parquet file still on
    disk and no result returned. *)
Lemma uploader_keeps_uploaded_file_counterexample :
  staged "convert_to_parquet" Demo.converted Demo.parquet_file Demo.parquet_bytes ∧
  s3_accepts (Collaborators := Demo.libs_no_remove)
    (clock Demo.converted) "lake" (run_key Demo.ds) = true ∧
  (upload_to_s3 (H := Demo.libs_no_remove) Demo.ds Demo.converted).1 = inl OSError ∧
  s3 (upload_to_s3 (H := Demo.libs_no_remove) Demo.ds Demo.converted).2
    !! ("lake", run_key Demo.ds) = Some Demo.parquet_bytes ∧
  s3 Demo.converted !! ("lake", run_key Demo.ds) = None ∧
  fs (upload_to_s3 (H := Demo.libs_no_remove) Demo.ds Demo.converted).2
    !! Demo.parquet_file = Some Demo.parquet_bytes.
Proof.
  split; [|repeat split; vm_compute; reflexivity].
  split; [vm_compute; reflexivity|]. split; [discriminate|vm_compute; reflexivity].
Qed.

(** C4, amended.  The Uploader removes the local Parquet file only after the
    transfer went through.  When it returns, the object is in the bucket with
    the bytes of the file, the result records it, and the removal is what it
    did after the transfer.  When it raises, it has removed nothing and the
    local files are as they were; the bucket is as it was too, unless the
    exception is the [OSError] of [os.path.getsize] or [os.remove] refusing
    after the transfer, and then the object is in the bucket with the bytes of
    the file.  It raises when the input is missing, when the bucket is not
    configured, when the transfer fails, and when the size or the removal is
    refused after it; it returns when the transfer is accepted and both are
    granted. *)
Theorem uploader_removes_only_transferred `{Collaborators} (ds : string) (w w' : World)
    (r : Exn + UploadDetails) :
  upload_to_s3 ds w = (r, w') →
  ∃ evs, emitted w w' evs ∧
    match r with
    | inr d =>
        ∃ pf bytes before,
          staged "convert_to_parquet" w pf bytes ∧
          s3_accepts (clock w) (bucket d) (key d) = true ∧
          s3 w' !! (bucket d, key d) = Some bytes ∧
          file_size_bytes d = String.length bytes ∧
          fs w' = delete pf (fs w) ∧
          evs = (before ++ [S3UploadFile pf (bucket d) (key d); FileRead pf;
                            Log (Uploaded (bucket d) (key d));
                            FileRemove pf; Log (CleanedParquet pf)])%list ∧
          Forall (λ ev, is_remove ev = false) before
    | inl e =>
        fs w' = fs w ∧ Forall (λ ev, is_remove ev = false) evs ∧
        (s3 w' = s3 w ∨
         ∃ pf bytes b,
           staged "convert_to_parquet" w pf bytes ∧
           env w !! "AWS_S3_BUCKET" = Some b ∧
           s3_accepts (clock w) b (s3_key ds pf) = true ∧
           e = OSError ∧
           (getsize_ok (clock w) pf = false ∨ remove_ok (clock w) pf = false) ∧
           s3 w' = <[(b, s3_key ds pf) := bytes]> (s3 w))
    end ∧
    (xcom w !! "convert_to_parquet" = None → r = inl (FileNotFoundError None)) ∧
    (∀ pf, xcom w !! "convert_to_parquet" = Some (XStr pf) → fs w !! pf = None →
       r = inl (FileNotFoundError (Some pf))) ∧
    (∀ pf bytes, staged "convert_to_parquet" w pf bytes →
       Py.falsy (env w !! "AWS_S3_BUCKET") = true →
       r = inl (ValueError "AWS_S3_BUCKET environment variable not set")) ∧
    (∀ pf bytes b, staged "convert_to_parquet" w pf bytes →
       env w !! "AWS_S3_BUCKET" = Some b → b ≠ "" →
       profile_ok (default "qa-in" (env w !! "AWS_PROFILE")) = true →
       if s3_accepts (clock w) b (s3_key ds pf)
       then if getsize_ok (clock w) pf && remove_ok (clock w) pf
            then ∃ d, r = inr d
            else r = inl OSError ∧ s3 w' = <[(b, s3_key ds pf) := bytes]> (s3 w)
       else r = inl S3UploadFailedError ∧ s3 w' = s3 w).
Proof.
  intros U. pose proof U as U'.
  apply upload_inv in U' as (_ & _ & _ & evs & Ev & _ & R).
  exists evs. split; [done|]. split; [|split; [|split; [|split]]].
  - destruct r as [e|d].
    + destruct R as (Hfs & Rm & [Hs3|(pf & bytes & b & X & F & B & Hb & A & -> & Bad & Hs3)]).
      * repeat split; try done. by left.
      * repeat split; try done. right. exists pf, bytes, b.
        repeat split; try done.
        intros ->. revert U. unfold upload_to_s3. unfold_m. simpl.
        by rewrite X.
    + destruct R as (pf & bytes & b & X & F & B & Hb & P & A & -> & Ffs & Fs3 & ->).
      exists pf, bytes,
        [Log UploadStarting; BotoSession (default "qa-in" (env w !! "AWS_PROFILE")); S3Client].
      simpl. repeat split; try done.
      * intros ->. revert U. unfold upload_to_s3. unfold_m. simpl.
        by rewrite X.
      * rewrite Fs3. apply lookup_insert_eq.
      * by repeat constructor.
  - intros X. revert U. unfold upload_to_s3. unfold_m. simpl.
    rewrite X. by intros [= <- _].
  - intros pf X F. revert U. unfold upload_to_s3. unfold_m. simpl.
    rewrite X. destruct pf; simpl; [by intros [= <- _]|].
    rewrite F. simpl. by intros [= <- _].
  - intros pf bytes St B. eauto using upload_staged_unset.
  - intros pf bytes b (X & Hpf & F) B Hb P. revert U.
    unfold upload_to_s3. unfold_m. simpl.
    rewrite X. destruct pf; [done|]. destruct b; [done|]. simpl.
    repeat (rewrite ?F, ?B, ?P; simpl).
    destruct (s3_accepts _ _ _); simpl.
    + repeat (rewrite ?F; simpl).
      destruct (getsize_ok _ _); simpl.
      * repeat (rewrite ?F; simpl).
        destruct (remove_ok _ _); simpl; [intros [= <- _]; by eexists|].
        by intros [= <- <-].
      * by intros [= <- <-].
    + by intros [= <- <-].
Qed.

Lemma uploader_removes_only_transferred_witness :
  (upload_to_s3 (H := Demo.libs) Demo.ds Demo.converted).1 = inr Demo.details ∧
  ∃ pf bytes,
    staged "convert_to_parquet" Demo.converted pf bytes ∧
    fs (upload_to_s3 (H := Demo.libs) Demo.ds Demo.converted).2
    = delete pf (fs Demo.converted).
Proof.
  assert ((upload_to_s3 (H := Demo.libs) Demo.ds Demo.converted).1 = inr Demo.details)
    as U by (vm_compute; reflexivity).
  split; [exact U|].
  destruct (uploader_removes_only_transferred (H := Demo.libs) Demo.ds Demo.converted _ _
              (pair_of_fst _ _ U))
    as (evs & _ & (pf & bytes & before & St & _ & _ & _ & Ffs & _) & _).
  by exists pf, bytes.
Defined.

(** C8, as stated, fails: with no bucket configured and no Parquet file
    pulled, the Uploader raises [FileNotFoundError], not the configuration
    error, because it checks its input first. *)
Lemma config_error_counterexample :
  Py.falsy (env Demo.no_bucket !! "AWS_S3_BUCKET") = true ∧
  (upload_to_s3 (H := Demo.libs) Demo.ds Demo.no_bucket).1 = inl (FileNotFoundError None) ∧
  ¬ ∃ msg w', upload_to_s3 (H := Demo.libs) Demo.ds Demo.no_bucket = (inl (ValueError msg), w').
Proof.
  split; [reflexivity|]. split; [vm_compute; reflexivity|].
  intros (msg & w' & E). apply (f_equal fst) in E. vm_compute in E. discriminate.
Qed.

(** C8, amended.  When the bucket is not configured (unset or empty), the
    Uploader raises before anything goes to AWS: it has logged its start and
    done nothing else, so no session, no client and no transfer.  The error is
    the configuration error when the pulled Parquet file is staged; when it
    is not, the input check, which comes first, has already raised. *)
Theorem config_error_before_network `{Collaborators} (ds : string) (w : World) :
  Py.falsy (env w !! "AWS_S3_BUCKET") = true →
  ∃ e w',
    upload_to_s3 ds w = (inl e, w') ∧
    emitted w w' [Log UploadStarting] ∧
    Forall (λ ev, is_s3_io ev = false) [Log UploadStarting] ∧
    s3 w' = s3 w ∧ fs w' = fs w ∧
    ((∃ pf bytes, staged "convert_to_parquet" w pf bytes) →
     e = ValueError "AWS_S3_BUCKET environment variable not set") ∧
    ((¬ ∃ pf bytes, staged "convert_to_parquet" w pf bytes) →
     e = TypeError ∨ ∃ p, e = FileNotFoundError p).
Proof.
  intros B.
  destruct (upload_to_s3 ds w) as [r w'] eqn:U.
  assert (∃ e, r = inl e ∧ emitted w w' [Log UploadStarting] ∧ s3 w' = s3 w ∧ fs w' = fs w ∧
               ((¬ ∃ pf bytes, staged "convert_to_parquet" w pf bytes) →
                e = TypeError ∨ ∃ p, e = FileNotFoundError p))
    as (e & -> & Ev & Hs3 & Hfs & Hmiss).
  { revert U. unfold upload_to_s3. unfold_m. simpl.
    destruct (xcom w !! "convert_to_parquet") as [[[|c pf]|d]|] eqn:X; simpl.
    - intros [= <- <-]. eexists. repeat split; eauto.
    - destruct (fs w !! String c pf) as [bytes|] eqn:F; simpl.
      + rewrite B. intros [= <- <-]. eexists. repeat split; try done.
        intros []. by exists (String c pf), bytes.
      + intros [= <- <-]. eexists. repeat split; eauto.
    - intros [= <- <-]. eexists. repeat split; eauto.
    - intros [= <- <-]. eexists. repeat split; eauto. }
  exists e, w'. repeat split; try done.
  - by repeat constructor.
  - intros (pf & bytes & St).
    pose proof (upload_staged_unset ds w w' (inl e) pf bytes U St B) as E.
    by injection E.
Qed.

Lemma config_error_before_network_witness :
  Py.falsy (env Demo.converted_no_bucket !! "AWS_S3_BUCKET") = true ∧
  ∃ e w',
    upload_to_s3 (H := Demo.libs) Demo.ds Demo.converted_no_bucket = (inl e, w') ∧
    emitted Demo.converted_no_bucket w' [Log UploadStarting] ∧
    s3 w' = s3 Demo.converted_no_bucket ∧
    e = ValueError "AWS_S3_BUCKET environment variable not set".
Proof.
  assert (Py.falsy (env Demo.converted_no_bucket !! "AWS_S3_BUCKET") = true)
    as B by reflexivity.
  split; [exact B|].
  destruct (config_error_before_network (H := Demo.libs) Demo.ds Demo.converted_no_bucket B)
    as (e & w' & U & Ev & _ & Hs3 & _ & Conf & _).
  exists e, w'. split; [exact U|]. split; [exact Ev|]. split; [exact Hs3|].
  apply Conf.
  exists "/tmp/timescale_data_2025-03-07.parquet", "PAR1MUM_001,MUM_002,MUM_001".
  split; [vm_compute; reflexivity|]. split; [discriminate|vm_compute; reflexivity].
Defined.

(** C1.  The key under which a run uploads depends on the run date and on
    nothing else: two completed runs for the same date, from whatever worlds,
    report the same key, [run_key ds].  When the second starts with the
    configuration of the first and the bucket as the first left it, it puts
    its object where the first one is: the bucket holds the same keys, and as
    many objects, after it as before. *)
Theorem partition_key_idempotent `{Collaborators} (ds : string) (w1 w1' w2 w2' : World) :
  run_dag ds w1 = (Completed, w1') →
  run_dag ds w2 = (Completed, w2') →
  ∃ d1 d2,
    xcom w1' !! "upload_to_s3" = Some (XDict d1) ∧
    xcom w2' !! "upload_to_s3" = Some (XDict d2) ∧
    key d1 = run_key ds ∧ key d2 = run_key ds ∧
    (env w2 = env w1 → s3 w2 = s3 w1' →
     bucket d2 = bucket d1 ∧
     is_Some (s3 w1' !! (bucket d1, key d1)) ∧
     (∃ bytes, s3 w2' = <[(bucket d1, key d1) := bytes]> (s3 w1')) ∧
     dom (s3 w2') = dom (s3 w1') ∧
     size (s3 w2') = size (s3 w1')).
Proof.
  intros R1 R2.
  apply run_dag_inv in R1 as (_ & b1 & bytes1 & t1 & B1 & S1 & X1).
  apply run_dag_inv in R2 as (_ & b2 & bytes2 & t2 & B2 & S2 & X2).
  eexists _, _. split; [exact X1|]. split; [exact X2|]. simpl.
  split; [done|]. split; [done|].
  intros Henv Hs3. rewrite Henv, B1 in B2. injection B2 as <-.
  assert (is_Some (s3 w1' !! (b1, run_key ds))) as Hthere.
  { rewrite S1, lookup_insert_eq. by eexists. }
  assert (s3 w2' = <[(b1, run_key ds) := bytes2]> (s3 w1')) as E by congruence.
  repeat split; try done.
  - by exists bytes2.
  - rewrite E. by apply dom_insert_lookup_L.
  - rewrite E. by apply map_size_insert_Some.
Qed.

Lemma partition_key_idempotent_witness :
  (run_dag (H := Demo.libs) Demo.ds Demo.fresh).1 = Completed ∧
  (run_dag (H := Demo.libs) Demo.ds Demo.after_first_run).1 = Completed ∧
  ∃ d1 d2,
    xcom (run_dag (H := Demo.libs) Demo.ds Demo.fresh).2 !! "upload_to_s3"
    = Some (XDict d1) ∧
    xcom (run_dag (H := Demo.libs) Demo.ds Demo.after_first_run).2 !! "upload_to_s3"
    = Some (XDict d2) ∧
    key d1 = run_key Demo.ds ∧ key d2 = run_key Demo.ds ∧
    size (s3 (run_dag (H := Demo.libs) Demo.ds Demo.after_first_run).2)
    = size (s3 (run_dag (H := Demo.libs) Demo.ds Demo.fresh).2).
Proof.
  assert ((run_dag (H := Demo.libs) Demo.ds Demo.fresh).1 = Completed)
    as R1 by (vm_compute; reflexivity).
  assert ((run_dag (H := Demo.libs) Demo.ds Demo.after_first_run).1 = Completed)
    as R2 by (vm_compute; reflexivity).
  split; [exact R1|]. split; [exact R2|].
  destruct (partition_key_idempotent (H := Demo.libs) Demo.ds _ _ _ _
              (pair_of_fst _ _ R1) (pair_of_fst _ _ R2))
    as (d1 & d2 & X1 & X2 & K1 & K2 & Again).
  exists d1, d2.
  split; [exact X1|]. split; [exact X2|]. split; [exact K1|]. split; [exact K2|].
  destruct (Again eq_refl eq_refl) as (_ & _ & _ & _ & Same).
  exact Same.
Defined.

(** C5, as stated, fails: the Converter's input, the CSV, is gone once the
    Converter has succeeded; when the Converter is run again in that state,
    with every collaborator answering, its three attempts all raise
    [FileNotFoundError], the Extractor is not run again and the CSV is not
    there afterwards. *)
Lemma retry_rederives_counterexample :
  xcom Demo.converted !! "extract_timescale_data" = Some (XStr (csv_path Demo.ds)) ∧
  fs Demo.converted !! csv_path Demo.ds = None ∧
  attempt_log (trace Demo.converted) = [(extract_task, 1%nat); (convert_task, 1%nat)] ∧
  (run_task (H := Demo.libs) convert_task Demo.ds Demo.converted).1
  = TaskFailed (FileNotFoundError (Some (csv_path Demo.ds))) 3 ∧
  fs (run_task (H := Demo.libs) convert_task Demo.ds Demo.converted).2
    !! csv_path Demo.ds = None ∧
  attempt_log (trace (run_task (H := Demo.libs) convert_task Demo.ds Demo.converted).2)
  = [(extract_task, 1%nat); (convert_task, 1%nat);
     (convert_task, 1%nat); (convert_task, 2%nat); (convert_task, 3%nat)].
Proof. repeat split; vm_compute; reflexivity. Qed.

(** C5, amended.  A retry runs the task that failed and no other: every
    attempt a task instance records is an attempt of that task.  When the
    file the Converter or the Uploader pulls is missing, nothing re-derives
    it: each of the three attempts raises [FileNotFoundError], the task
    instance fails, and it has changed neither the local files nor the
    bucket. *)
Theorem retry_reruns_failed_stage_only `{Collaborators} (t : TaskId) (ds : string)
    (w : World) :
  (∀ st w', run_task t ds w = (st, w') →
     ∃ evs, emitted w w' evs ∧ ∀ t' n, (t', n) ∈ attempt_log evs → t' = t) ∧
  (input_missing t w →
   ∃ p w',
     run_task t ds w = (TaskFailed (FileNotFoundError p) 3, w') ∧
     fs w' = fs w ∧ s3 w' = s3 w ∧
     ∃ evs, emitted w w' evs ∧
       attempt_log evs = [(t, 1%nat); (t, 2%nat); (t, 3%nat)]).
Proof.
  split.
  - intros st w' R.
    apply run_task_attempt_log in R as (evs & k & Ev & Log).
    exists evs. split; [done|]. intros t' n. rewrite Log.
    intros (i & E & _)%list_elem_of_fmap. by injection E.
  - intros Miss.
    destruct (attempts_input_missing t ds 2 1 w Miss) as (p & w' & A & Hfs & Hs3).
    exists p, w'. repeat split; try done.
    apply run_task_failed in A as (_ & _ & _ & _ & _ & _ & _ & Hev). exact Hev.
Qed.

Lemma retry_reruns_failed_stage_only_witness :
  input_missing convert_task Demo.converted ∧
  ∃ p w',
    run_task (H := Demo.libs) convert_task Demo.ds Demo.converted
    = (TaskFailed (FileNotFoundError p) 3, w') ∧
    fs w' = fs Demo.converted.
Proof.
  assert (input_missing convert_task Demo.converted) as Miss.
  { exists "extract_timescale_data". split; [by left|]. right.
    exists (csv_path Demo.ds). split; vm_compute; reflexivity. }
  split; [exact Miss|].
  destruct (retry_reruns_failed_stage_only (H := Demo.libs) convert_task Demo.ds
              Demo.converted) as (_ & Fails).
  destruct (Fails Miss) as (p & w' & R & Hfs & _).
  by exists p, w'.
Defined.

(** C6.  A task that keeps raising is attempted three times, the first try
    and two retries, each retry five minutes after the failure before it, and
    only then is the run [Failed]; a task that succeeds has used at most the
    two retries.  When the database cannot be reached, the run is [Failed] at
    the Extractor after its three attempts, ten minutes after it started, and
    neither the local files nor the bucket have changed. *)
Theorem two_retries_then_failed `{Collaborators} (ds : string) (w : World) :
  (∀ t e m w', run_task t ds w = (TaskFailed e m, w') →
     m = S (retries default_args) ∧ m = 3%nat ∧
     clock w' = clock w + 2 * (5 * Sql.minute) ∧
     ∃ evs, emitted w w' evs ∧
       attempt_log evs = [(t, 1%nat); (t, 2%nat); (t, 3%nat)]) ∧
  (∀ t m w', run_task t ds w = (TaskSuccess m, w') →
     (m ≤ 3)%nat ∧ clock w' = clock w + (Z.of_nat m - 1) * (5 * Sql.minute)) ∧
  (∀ t e m w', run_dag ds w = (Failed t e m, w') → m = 3%nat) ∧
  ((∀ c now, table_at c now = None) →
   ∃ e w',
     run_dag ds w = (Failed extract_task e 3, w') ∧
     fs w' = fs w ∧ s3 w' = s3 w ∧
     clock w' = clock w + 2 * (5 * Sql.minute) ∧
     ∃ evs, emitted w w' evs ∧
       attempt_log evs
       = [(extract_task, 1%nat); (extract_task, 2%nat); (extract_task, 3%nat)]).
Proof.
  split; [|split; [|split]].
  - intros t e m w' F.
    apply run_task_failed in F as (-> & _ & _ & Hclock & _ & _ & _ & Hev).
    repeat split; try done.
  - intros t m w' S.
    apply run_task_success_inv in S
      as (k & wl & v & w1 & Hk & -> & _ & _ & Hclock & _ & _ & _ & _ & C & ->).
    apply callable_inv in C as (_ & _ & Cclock & _).
    split; [lia|].
    replace (clock (xcom_push t v w1)) with (clock w1) by (by destruct v).
    rewrite Cclock. simpl. rewrite Hclock. simpl. lia.
  - intros t e m w' R. by apply run_dag_inv in R as (_ & -> & _).
  - intros Down.
    unfold run_dag, dag_tasks, run_chain.
    destruct (run_task extract_task ds w) as [[m|e m] w'] eqn:E.
    + apply run_task_success_inv in E
        as (k & wl & v & w1 & _ & _ & _ & _ & _ & _ & _ & _ & _ & C & _).
      unfold python_callable, mbind, M_bind, mret, M_ret in C.
      destruct (extract_timescale_data _ _) as [[e|p] w2] eqn:X; [done|].
      apply extract_inv in X as (_ & _ & _ & _ & _ & _ & c & table & T & _).
      by rewrite Down in T.
    + pose proof E as E'.
      apply run_task_failed in E as (-> & _ & Hs3 & Hclock & _ & _ & _ & Hev).
      apply extract_task_failed in E' as (_ & Hfs).
      exists e, w'. repeat split; try done; [by apply Hfs|by apply Hs3].
Qed.

Lemma two_retries_then_failed_witness :
  (∀ c now, table_at (Collaborators := Demo.libs_db_down) c now = None) ∧
  ∃ e w',
    run_dag (H := Demo.libs_db_down) Demo.ds Demo.fresh = (Failed extract_task e 3, w') ∧
    fs w' = fs Demo.fresh ∧ s3 w' = s3 Demo.fresh ∧
    clock w' = clock Demo.fresh + 2 * (5 * Sql.minute).
Proof.
  assert (∀ c now, table_at (Collaborators := Demo.libs_db_down) c now = None)
    as Down by reflexivity.
  split; [exact Down|].
  destruct (two_retries_then_failed (H := Demo.libs_db_down) Demo.ds Demo.fresh)
    as (_ & _ & _ & Unreachable).
  destruct (Unreachable Down) as (e & w' & R & Hfs & Hs3 & Hclock & _).
  exists e, w'. split; [exact R|]. split; [exact Hfs|]. split; [exact Hs3|exact Hclock].
Defined.

(** C7, as stated, fails: a run can end [Failed] with its object in the
    bucket and no success reported.  When the system refuses to remove the
    Parquet file, each of the Uploader's three attempts transfers the file and
    then raises on [os.remove]; the run is [Failed] at the Uploader, the
    object is under the key of the run, and XCom holds no upload result. *)
Lemma failed_run_left_object_counterexample :
  (run_dag (H := Demo.libs_no_remove) Demo.ds Demo.fresh).1 = Failed upload_task OSError 3 ∧
  s3 Demo.fresh !! ("lake", run_key Demo.ds) = None ∧
  s3 (run_dag (H := Demo.libs_no_remove) Demo.ds Demo.fresh).2 !! ("lake", run_key Demo.ds)
  = Some Demo.parquet_bytes ∧
  xcom (run_dag (H := Demo.libs_no_remove) Demo.ds Demo.fresh).2 !! "upload_to_s3" = None.
Proof. repeat split; vm_compute; reflexivity. Qed.

(** C7, amended.  A run that ends [Failed] failed at the Extractor, the
    Converter or the Uploader, and the Uploader has reported no success: if
    it ran, XCom holds no upload result; if it did not, XCom holds for it
    what it held before the run.  A run that failed before the Uploader has
    left the bucket as it was.  A run that failed at the Uploader has left
    the bucket as it was, or has put one object, under the key of the run in
    the configured bucket, with the bytes of the Parquet file, which is still
    on disk; this happens only when [os.path.getsize] or [os.remove] refused
    after a transfer.  When neither ever refuses, a [Failed] run has written
    nothing to the bucket. *)
Theorem failed_run_bucket `{Collaborators} (ds : string) (w w' : World)
    (t : TaskId) (e : Exn) (m : nat) :
  run_dag ds w = (Failed t e m, w') →
  t ≠ notify_task ∧
  (t = upload_task → xcom w' !! "upload_to_s3" = None) ∧
  (t ≠ upload_task → xcom w' !! "upload_to_s3" = xcom w !! "upload_to_s3") ∧
  (t ≠ upload_task → s3 w' = s3 w) ∧
  (s3 w' = s3 w ∨
   ∃ b bytes now,
     t = upload_task ∧
     env w !! "AWS_S3_BUCKET" = Some b ∧ b ≠ "" ∧
     (getsize_ok now (parquet_path (csv_path ds)) = false ∨
      remove_ok now (parquet_path (csv_path ds)) = false) ∧
     fs w' !! parquet_path (csv_path ds) = Some bytes ∧
     s3 w' = <[(b, run_key ds) := bytes]> (s3 w)) ∧
  ((∀ now p, getsize_ok now p = true) → (∀ now p, remove_ok now p = true) →
   s3 w' = s3 w).
Proof.
  intros R. apply run_dag_inv in R as (_ & _ & Ht & Hnone & Hx & Hs3).
  split; [done|]. split; [|split; [|split; [|split]]].
  - exact Hnone.
  - exact Hx.
  - intros Hne. by destruct Hs3 as [?|(b & bytes & now & -> & _)].
  - exact Hs3.
  - intros Size Remove.
    destruct Hs3 as [?|(b & bytes & now & _ & _ & _ & [Bad|Bad] & _)]; [done| |].
    + by rewrite Size in Bad.
    + by rewrite Remove in Bad.
Qed.

Lemma failed_run_bucket_witness :
  (run_dag (H := Demo.libs_no_remove) Demo.ds Demo.fresh).1 = Failed upload_task OSError 3 ∧
  xcom (run_dag (H := Demo.libs_no_remove) Demo.ds Demo.fresh).2 !! "upload_to_s3" = None.
Proof.
  assert ((run_dag (H := Demo.libs_no_remove) Demo.ds Demo.fresh).1
          = Failed upload_task OSError 3) as R by (vm_compute; reflexivity).
  split; [exact R|].
  destruct (failed_run_bucket (H := Demo.libs_no_remove) _ _ _ _ _ _ (pair_of_fst _ _ R))
    as (_ & None & _).
  by apply None.
Defined.

(** C10.  When the Uploader and then the Notifier have run, the size in the
    completion record, the last thing in the log, is the size of the Parquet
    file that was on disk when the Uploader started and that it uploaded and
    then removed. *)
Theorem notifier_size_is_file_size `{Collaborators} (ds : string) (w w' : World) :
  run_chain [upload_task; notify_task] ds w = (Completed, w') →
  ∃ pf bytes d before,
    xcom w !! "convert_to_parquet" = Some (XStr pf) ∧
    fs w !! pf = Some bytes ∧
    fs w' !! pf = None ∧
    xcom w' !! "upload_to_s3" = Some (XDict d) ∧
    s3 w' !! (bucket d, key d) = Some bytes ∧
    file_size_bytes d = String.length bytes ∧
    trace w'
    = (before ++
       [FileRemove pf; Log (CleanedParquet pf);
        TaskAttempt notify_task 1; Log CompletedBanner; Log (ExecutionDate ds);
        Log (S3Location (bucket d) (key d));
        Log (FileSize (String.length bytes));
        Log (UploadTime (upload_time d)); Log CompletedRule])%list.
Proof.
  unfold run_chain.
  destruct (run_task upload_task ds w) as [[m|e m] w1] eqn:U; [|done].
  apply upload_task_success in U
    as (pf & b & bytes & k & wl & X & _ & _ & B & _ & F & _ & Hx & Xu & Hs3 & Hfs & Tr).
  destruct (notify_task_runs ds w1 _ Xu) as (w2 & -> & Nfs & _ & Ns3 & _ & Nx & Ntr).
  intros [= <-].
  exists pf, bytes,
    {| bucket := b; key := s3_key ds pf; file_size_bytes := String.length bytes;
       upload_time := clock w + Z.of_nat k * retry_delay default_args |},
    (trace wl ++
     [TaskAttempt upload_task m; Log UploadStarting;
      BotoSession (default "qa-in" (env w !! "AWS_PROFILE")); S3Client;
      S3UploadFile pf b (s3_key ds pf); FileRead pf;
      Log (Uploaded b (s3_key ds pf))])%list.
  split; [done|]. split; [done|].
  split; [rewrite Nfs, Hfs; apply lookup_delete_eq|].
  split; [rewrite Nx by done; exact Xu|].
  split; [rewrite Ns3, Hs3; apply lookup_insert_eq|].
  split; [done|].
  rewrite Ntr, Tr. cbn [bucket key file_size_bytes upload_time].
  by rewrite <- !app_assoc.
Qed.

Lemma notifier_size_is_file_size_witness :
  (run_chain (H := Demo.libs) [upload_task; notify_task] Demo.ds Demo.converted).1
  = Completed ∧
  ∃ pf bytes d,
    fs Demo.converted !! pf = Some bytes ∧
    xcom (run_chain (H := Demo.libs) [upload_task; notify_task] Demo.ds Demo.converted).2
      !! "upload_to_s3" = Some (XDict d) ∧
    file_size_bytes d = String.length bytes.
Proof.
  assert ((run_chain (H := Demo.libs) [upload_task; notify_task] Demo.ds Demo.converted).1
          = Completed) as R by (vm_compute; reflexivity).
  split; [exact R|].
  destruct (notifier_size_is_file_size (H := Demo.libs) Demo.ds Demo.converted _
              (pair_of_fst _ _ R))
    as (pf & bytes & d & before & _ & F & _ & X & _ & Size & _).
  by exists pf, bytes, d.
Defined.

(** * Further properties of the pipeline *)

(** ** The aggregation query, group by group *)

Lemma add_to_group_keys (k : Sql.GroupKey) (r : Reading) (gs : list (Sql.GroupKey * list Reading)) :
  map fst (Sql.add_to_group k r gs)
  = if decide (k ∈ map fst gs) then map fst gs else (map fst gs ++ [k])%list.
Proof.
  induction gs as [|[k' rs] gs IH]; simpl; [done|].
  destruct (decide (k = k')) as [->|Hne]; simpl.
  - rewrite decide_True by apply list_elem_of_here. done.
  - rewrite IH. destruct (decide (k ∈ map fst gs)) as [Hin|Hout].
    + rewrite decide_True by (by apply list_elem_of_further). done.
    + rewrite decide_False; [done|]. by intros [?|?]%elem_of_cons.
Qed.

Lemma add_to_group_ok (r : Reading) (gs : list (Sql.GroupKey * list Reading)) :
  groups_ok gs → groups_ok (Sql.add_to_group (Sql.group_key r) r gs).
Proof.
  intros [Hnd Hall]. split.
  - rewrite add_to_group_keys. case_decide; [done|].
    apply NoDup_app. repeat split; [done| |apply NoDup_singleton].
    intros x Hx ->%list_elem_of_singleton. done.
  - clear Hnd. induction Hall as [|[k' rs] gs [Hne Hrs] Hall IH]; simpl.
    + repeat constructor; done.
    + destruct (decide (Sql.group_key r = k')) as [<-|Hk]; constructor; try done.
      simpl in *. split; [by destruct rs|].
      apply Forall_app. split; [done|]. by repeat constructor.
Qed.

Lemma add_to_group_members (k : Sql.GroupKey) (r : Reading) (gs : list (Sql.GroupKey * list Reading)) :
  Permutation (concat (map snd (Sql.add_to_group k r gs))) (r :: concat (map snd gs)).
Proof.
  induction gs as [|[k' rs] gs IH]; simpl; [done|].
  destruct (decide (k = k')); simpl.
  - rewrite <- app_assoc. simpl. by rewrite <- Permutation_middle.
  - rewrite IH. by rewrite <- Permutation_middle.
Qed.

Lemma group_by_from (rows : list Reading) : ∀ gs,
  groups_ok gs →
  let gs' := fold_left (λ gs r, Sql.add_to_group (Sql.group_key r) r gs) rows gs in
  groups_ok gs' ∧ Permutation (concat (map snd gs')) (concat (map snd gs) ++ rows).
Proof.
  induction rows as [|r rows IH]; intros gs Hok; simpl.
  - by rewrite app_nil_r.
  - destruct (IH _ (add_to_group_ok r gs Hok)) as [Hok' Hperm]. split; [done|].
    rewrite Hperm, add_to_group_members. simpl. by rewrite <- Permutation_middle.
Qed.

Lemma group_by_ok (rows : list Reading) :
  groups_ok (Sql.group_by rows) ∧
  Permutation (concat (map snd (Sql.group_by rows))) rows.
Proof.
  apply (group_by_from rows []). split; [constructor|constructor].
Qed.

Lemma aggregate_key (g : Sql.GroupKey * list Reading) : row_key (Sql.aggregate g) = g.1.
Proof. by destruct g as [[[[b dev] ci] co] rs]. Qed.

Lemma aggregate_count (g : Sql.GroupKey * list Reading) :
  record_count (Sql.aggregate g) = length g.2.
Proof. by destruct g as [[[[b dev] ci] co] rs]. Qed.

Lemma min_of_le (ts : list Z) : ∀ t, Sql.min_of t ts ≤ t.
Proof.
  unfold Sql.min_of. induction ts as [|x ts IH]; intros t; simpl; [lia|].
  specialize (IH (Z.min t x)). lia.
Qed.

Lemma min_of_ge (lo : Z) (ts : list Z) : ∀ t,
  lo ≤ t → Forall (λ x, lo ≤ x) ts → lo ≤ Sql.min_of t ts.
Proof.
  unfold Sql.min_of. induction ts as [|x ts IH]; intros t Ht Hts; simpl; [done|].
  inversion Hts; subst. apply IH; [lia|done].
Qed.

Lemma max_of_ge (ts : list Z) : ∀ t, t ≤ Sql.max_of t ts.
Proof.
  unfold Sql.max_of. induction ts as [|x ts IH]; intros t; simpl; [lia|].
  specialize (IH (Z.max t x)). lia.
Qed.

Lemma max_of_lt (hi : Z) (ts : list Z) : ∀ t,
  t < hi → Forall (λ x, x < hi) ts → Sql.max_of t ts < hi.
Proof.
  unfold Sql.max_of. induction ts as [|x ts IH]; intros t Ht Hts; simpl; [done|].
  inversion Hts; subst. apply IH; [lia|done].
Qed.

Lemma time_bucket_hour (t : Z) :
  Sql.time_bucket Sql.hour t mod Sql.hour = 0 ∧
  Sql.time_bucket Sql.hour t ≤ t < Sql.time_bucket Sql.hour t + Sql.hour.
Proof.
  unfold Sql.time_bucket.
  assert (0 < Sql.hour) as Hpos by done.
  pose proof (Z.mod_pos_bound t Sql.hour Hpos) as Hb.
  split; [|lia].
  replace (t - t mod Sql.hour) with (t / Sql.hour * Sql.hour)
    by (pose proof (Z.div_mod t Sql.hour); lia).
  apply Z.mod_mul. lia.
Qed.

(** One group, once aggregated. *)
Lemma aggregate_bounds (now : Z) (g : Sql.GroupKey * list Reading) :
  g.2 ≠ [] →
  Forall (λ r, Sql.group_key r = g.1) g.2 →
  Forall (λ r, Sql.in_window now r = true) g.2 →
  let row := Sql.aggregate g in
  hour_bucket row mod Sql.hour = 0 ∧
  hour_bucket row ≤ min_timestamp row ∧
  min_timestamp row ≤ max_timestamp row ∧
  max_timestamp row < hour_bucket row + Sql.hour ∧
  now - 24 * Sql.hour ≤ min_timestamp row ∧
  (0 < record_count row)%nat.
Proof.
  destruct g as [[[[b dev] ci] co] rs]. simpl. intros Hne Hkey Hwin.
  destruct rs as [|r rs]; [done|]. clear Hne. simpl.
  assert (Forall (λ t, b mod Sql.hour = 0 ∧ b ≤ t < b + Sql.hour ∧ now - 24 * Sql.hour ≤ t)
            (map timestamp_column (r :: rs))) as Hts.
  { apply Forall_fmap. rewrite Forall_forall in Hkey, Hwin. apply Forall_forall.
    intros x Hx. specialize (Hkey x Hx). specialize (Hwin x Hx). simpl in *.
    unfold Sql.group_key in Hkey. injection Hkey as <- _ _ _.
    unfold Sql.in_window in Hwin. apply Z.leb_le in Hwin.
    pose proof (time_bucket_hour (timestamp_column x)). lia. }
  simpl in Hts. inversion Hts as [|t ts (Hal & Hb & Hw) Hrest]; subst.
  pose proof (min_of_le (map timestamp_column rs) (timestamp_column r)).
  pose proof (max_of_ge (map timestamp_column rs) (timestamp_column r)).
  repeat split; try lia.
  - apply min_of_ge; [lia|]. eapply Forall_impl; [exact Hrest|]. simpl. lia.
  - apply max_of_lt; [lia|]. eapply Forall_impl; [exact Hrest|]. simpl. lia.
  - apply min_of_ge; [lia|]. eapply Forall_impl; [exact Hrest|]. simpl. lia.
Qed.

Lemma sum_group_sizes (gs : list (Sql.GroupKey * list Reading)) :
  sum_list (map record_count (map Sql.aggregate gs)) = length (concat (map snd gs)).
Proof.
  induction gs as [|g gs IH]; simpl; [done|].
  by rewrite length_app, IH, aggregate_count.
Qed.

(** X1.  The result counts every reading of the last 24 hours exactly once:
    the [record_count]s of the rows add up to the number of readings in the
    window. *)
Theorem query_counts_every_reading (now : Z) (table : list Reading) :
  sum_list (map record_count (Sql.query now table))
  = length (filter (λ r, Sql.in_window now r) table).
Proof.
  unfold Sql.query.
  rewrite <- (sort_rows_perm (map Sql.aggregate _)).
  rewrite sum_group_sizes.
  apply Permutation_length, group_by_ok.
Qed.

(** X2.  No two rows of the result have the same hour bucket, device, city
    and country. *)
Theorem query_groups_distinct (now : Z) (table : list Reading) :
  NoDup (map row_key (Sql.query now table)).
Proof.
  unfold Sql.query.
  rewrite <- (sort_rows_perm (map Sql.aggregate _)).
  rewrite map_map.
  rewrite (map_ext _ fst) by apply aggregate_key.
  apply group_by_ok.
Qed.

(** X3.  Every row of the result stands for at least one reading; its bucket
    starts on the hour; its earliest and latest timestamps lie in that hour, in
    this order, and not before the start of the 24-hour window. *)
Theorem query_rows_within_bucket (now : Z) (table : list Reading) (row : AggRow) :
  row ∈ Sql.query now table →
  hour_bucket row mod Sql.hour = 0 ∧
  hour_bucket row ≤ min_timestamp row ∧
  min_timestamp row ≤ max_timestamp row ∧
  max_timestamp row < hour_bucket row + Sql.hour ∧
  now - 24 * Sql.hour ≤ min_timestamp row ∧
  (0 < record_count row)%nat.
Proof.
  unfold Sql.query. rewrite <- (sort_rows_perm (map Sql.aggregate _)).
  intros (g & -> & Hg)%list_elem_of_fmap.
  destruct (group_by_ok (filter (λ r, Sql.in_window now r) table)) as [[_ Hall] Hperm].
  rewrite Forall_forall in Hall. destruct (Hall g Hg) as [Hne Hkey].
  apply aggregate_bounds; [done|done|].
  apply Forall_forall. intros r Hr.
  assert (r ∈ filter (λ r, Sql.in_window now r) table) as Hin.
  { rewrite <- Hperm. apply list_elem_of_In, in_concat. exists g.2. split.
    - apply in_map, list_elem_of_In, Hg.
    - by apply list_elem_of_In. }
  apply list_elem_of_filter in Hin as [Hw _]. by apply Is_true_true.
Qed.

(** ** Paths and keys of a run *)

Lemma occurs_append (c : ascii) (a b : string) :
  occurs c (a ++ b) = occurs c a || occurs c b.
Proof. induction a as [|x a IH]; simpl; [done|]. by destruct (Ascii.eqb x c). Qed.

Lemma has_slash_occurs (s : string) : PyStr.has_slash s = occurs "/" s.
Proof. induction s as [|x s IH]; simpl; [done|]. by rewrite IH. Qed.

Lemma basename_no_slash (s : string) : occurs "/" s = false → PyStr.basename s = s.
Proof.
  destruct s as [|c s]; [done|]. intros Hs. cbn [PyStr.basename].
  by rewrite has_slash_occurs, Hs.
Qed.

Lemma basename_after_slash (dir name : string) :
  occurs "/" name = false → PyStr.basename (dir ++ "/" ++ name) = name.
Proof.
  intros Hs. induction dir as [|c dir IH].
  - change ("" ++ "/" ++ name) with (String "/" name). cbn [PyStr.basename].
    rewrite has_slash_occurs. cbn [occurs]. rewrite Ascii.eqb_refl.
    by apply basename_no_slash.
  - change (String c dir ++ "/" ++ name) with (String c (dir ++ "/" ++ name)).
    cbn [PyStr.basename]. rewrite has_slash_occurs.
    change (String c (dir ++ "/" ++ name)) with (String c dir ++ String "/" name).
    rewrite occurs_append. cbn [occurs]. rewrite Ascii.eqb_refl, orb_true_r.
    exact IH.
Qed.

Lemma replace_csv_suffix (s : string) :
  occurs "." s = false →
  PyStr.replace_go ".csv" ".parquet" 0 (s ++ ".csv") = s ++ ".parquet".
Proof.
  induction s as [|c s IH]; [done|].
  cbn [occurs]. destruct (Ascii.eqb c ".") eqn:E; [done|]. intros Hs.
  change (String c s ++ ".csv") with (String c (s ++ ".csv")).
  rewrite replace_go_0.
  replace (String.prefix ".csv" (String c (s ++ ".csv"))) with false.
  - cbn [String.append]. by rewrite IH.
  - cbn [String.prefix]. destruct (ascii_dec "." c) as [<-|]; [|done].
    by rewrite Ascii.eqb_refl in E.
Qed.

Lemma digit_not (c : ascii) (n : N) : (N_of_ascii c < 48)%N → Ascii.eqb (digit n) c = false.
Proof.
  intros Hc. apply Ascii.eqb_neq. intros <-. revert Hc. unfold digit.
  assert (n mod 10 < 10)%N as L by (apply N.mod_lt; lia).
  revert L. generalize (n mod 10)%N. intros r L.
  rewrite N_ascii_embedding; lia.
Qed.

Lemma ds_of_plain (c : ascii) (d : RunDate) :
  (N_of_ascii c < 48)%N → c ≠ "-"%char → occurs c (ds_of d) = false.
Proof.
  intros Hc Hdash. unfold ds_of, pad4, pad2. rewrite !occurs_append. cbn [occurs].
  rewrite !digit_not by done.
  by destruct (Ascii.eqb_spec "-"%char c).
Qed.

(** X4.  For a run date the Converter names the Parquet file
    [/tmp/timescale_data_YYYY-MM-DD.parquet], and the object of the run is
    [timescale_data/year=YYYY/month=MM/day=DD/timescale_data_YYYY-MM-DD.parquet]. *)
Theorem run_key_of_date (d : RunDate) :
  parquet_path (csv_path (ds_of d)) = "/tmp/timescale_data_" ++ ds_of d ++ ".parquet" ∧
  run_key (ds_of d)
  = "timescale_data/year=" ++ pad4 (year d) ++ "/month=" ++ pad2 (month d)
    ++ "/day=" ++ pad2 (day d) ++ "/timescale_data_" ++ ds_of d ++ ".parquet".
Proof.
  assert (parquet_path (csv_path (ds_of d))
          = "/tmp/timescale_data_" ++ ds_of d ++ ".parquet") as P.
  { unfold parquet_path, csv_path, PyStr.replace.
    change ("/tmp/timescale_data_" ++ ds_of d ++ ".csv")
      with (("/tmp/timescale_data_" ++ ds_of d) ++ ".csv").
    rewrite replace_csv_suffix; [done|].
    rewrite occurs_append, ds_of_plain by done. done. }
  split; [exact P|].
  unfold run_key, s3_key. rewrite P.
  replace (PyStr.basename ("/tmp/timescale_data_" ++ ds_of d ++ ".parquet"))
    with ("timescale_data_" ++ ds_of d ++ ".parquet"); [done|].
  assert (occurs "/" ("timescale_data_" ++ ds_of d ++ ".parquet") = false) as Hs.
  { rewrite !occurs_append, ds_of_plain by done. done. }
  change ("/tmp/timescale_data_" ++ ds_of d ++ ".parquet")
    with ("/tmp" ++ "/" ++ "timescale_data_" ++ ds_of d ++ ".parquet").
  by rewrite basename_after_slash.
Qed.

(** ** More on the Extractor *)

(** X5.  The Extractor fails in three ways.  A [TIMESCALE_PORT] that is not
    a number makes [int()] raise [ValueError], with the interpreter's message
    for that string, before any query is sent and outside the [try]: no error
    is logged and no file is touched.  A database that does not answer the
    connection built from the environment (host [localhost] and port 5432
    when unset) raises its error after it was logged, and no file is touched.
    A disk that aborts the write of the CSV, after the database answered,
    raises [OSError] after it was logged: the CSV path of the run holds what
    the aborted write left, if anything, every other file is as it was, and
    the path is not reported as saved. *)
Theorem extractor_failure_modes `{Collaborators} (ds : string) (w w' : World) (e : Exn) :
  extract_timescale_data ds w = (inl e, w') →
  (∃ s, env w !! "TIMESCALE_PORT" = Some s ∧ py_int s = None ∧
     e = ValueError (int_error s) ∧
     fs w' = fs w ∧
     emitted w w' [Log ExtractStarting]) ∨
  (∃ p, configured_port w = Some p ∧
     table_at (configured_conn w p) (clock w) = None ∧
     e = OperationalError ∧
     fs w' = fs w ∧
     emitted w w' [Log ExtractStarting; SqlQuery (configured_conn w p) (clock w);
                   Log (ExtractError OperationalError)]) ∨
  (∃ p rows left_behind,
     configured_port w = Some p ∧
     table_at (configured_conn w p) (clock w) = Some rows ∧
     csv_disk (clock w) (csv_path ds) (to_csv (Sql.query (clock w) rows))
     = WriteAborted left_behind ∧
     e = OSError ∧
     match left_behind with
     | Some junk =>
         fs w' = <[csv_path ds := junk]> (fs w) ∧
         emitted w w' [Log ExtractStarting; SqlQuery (configured_conn w p) (clock w);
                       Log (Extracted (length (Sql.query (clock w) rows)));
                       FileWrite (csv_path ds); Log (ExtractError OSError)]
     | None =>
         fs w' = fs w ∧
         emitted w w' [Log ExtractStarting; SqlQuery (configured_conn w p) (clock w);
                       Log (Extracted (length (Sql.query (clock w) rows)));
                       Log (ExtractError OSError)]
     end).
Proof.
  unfold extract_timescale_data, configured_port, configured_conn. intros E.
  unfold Py.write_file in E. run_cases E.
  all: try (left; eexists; repeat split; try done; fail).
  all: try (right; left; eexists; repeat split; try done;
            unfold emitted; simpl; by rewrite <- ?app_assoc).
  all: right; right; eexists _, _, _; (split; [done|]); (split; [done|]);
    (split; [eassumption|]); (split; [done|]); simpl;
    (split; [done|]); unfold emitted; simpl; by rewrite <- ?app_assoc.
Qed.

(** X6.  When the database does not answer at the first attempt and answers
    five minutes later, and the disk then takes the CSV, the Extractor
    succeeds at its second try: the query runs at the later time, and the CSV
    of its result is staged and pushed. *)
Theorem extractor_recovers_on_retry `{Collaborators} (ds : string) (w : World)
    (p : Z) (rows : list Reading) :
  configured_port w = Some p →
  table_at (configured_conn w p) (clock w) = None →
  table_at (configured_conn w p) (clock w + 5 * Sql.minute) = Some rows →
  csv_disk (clock w + 5 * Sql.minute) (csv_path ds)
    (to_csv (Sql.query (clock w + 5 * Sql.minute) rows)) = WriteThrough →
  ∃ w',
    run_task extract_task ds w = (TaskSuccess 2, w') ∧
    clock w' = clock w + 5 * Sql.minute ∧
    xcom w' !! "extract_timescale_data" = Some (XStr (csv_path ds)) ∧
    fs w' = <[csv_path ds := to_csv (Sql.query (clock w + 5 * Sql.minute) rows)]> (fs w).
Proof.
  unfold configured_port, configured_conn. intros P Down Up Disk.
  unfold run_task, attempts, python_callable, extract_timescale_data. unfold_m. simpl.
  destruct (env w !! "TIMESCALE_PORT") as [s|] eqn:Es.
  - repeat (rewrite ?Es, ?P, ?Down, ?Up, ?Disk; simpl).
    eexists. split; [reflexivity|]. simpl. repeat split; try done.
    apply lookup_insert_eq.
  - injection P as <-. repeat (rewrite ?Es, ?Down, ?Up, ?Disk; simpl).
    eexists. split; [reflexivity|]. simpl. repeat split; try done.
    apply lookup_insert_eq.
Qed.

(** ** The Notifier and the Converter at their edges *)

(** X8.  The Notifier changes nothing but the log.  It returns exactly when
    the Uploader's dictionary is in XCom; without it, it raises [TypeError]
    after the first two lines of the record. *)
Theorem notifier_only_logs (ds : string) (w w' : World) (r : Exn + unit) :
  notify_completion ds w = (r, w') →
  fs w' = fs w ∧ env w' = env w ∧ xcom w' = xcom w ∧ s3 w' = s3 w ∧ clock w' = clock w ∧
  (∃ evs, emitted w w' evs ∧ Forall (λ ev, ∃ l, ev = Log l) evs) ∧
  (r = inr tt ↔ ∃ d, xcom w !! "upload_to_s3" = Some (XDict d)) ∧
  (r ≠ inr tt → r = inl TypeError ∧
     emitted w w' [Log CompletedBanner; Log (ExecutionDate ds)]).
Proof.
  intros N. apply notify_inv in N as (Hfs & Henv & Hx & Hclock & Hs3 & evs & Ev & R).
  repeat split; try done.
  - exists evs. split; [done|].
    destruct (xcom w !! "upload_to_s3") as [[|]|]; destruct R as [_ ->];
      repeat constructor; by eexists.
  - intros ->. destruct (xcom w !! "upload_to_s3") as [[|]|]; destruct R as [? _];
      try done. by eexists.
  - intros [d Hd]. rewrite Hd in R. by destruct R.
  - destruct (xcom w !! "upload_to_s3") as [[|]|]; by destruct R.
  - destruct (xcom w !! "upload_to_s3") as [[|]|]; destruct R as [-> ->]; done.
Qed.

(** X9.  [replace] leaves a path without [.csv] as it is, so for such a path
    the Converter writes the Parquet bytes over its input and then removes
    it: it returns a path at which there is no file, and touches no other. *)
Theorem converter_without_csv_suffix `{Collaborators} (ds f p : string) (w w' : World) :
  xcom w !! "extract_timescale_data" = Some (XStr f) →
  parquet_path f = f →
  convert_csv_to_parquet ds w = (inr p, w') →
  p = f ∧ fs w' !! p = None ∧ ∀ q, q ≠ f → fs w' !! q = fs w !! q.
Proof.
  intros X Same C.
  apply convert_inv in C as (_ & _ & _ & _ & evs & _ & _ & R).
  destruct R as (f' & text & df & table & bytes & Xf & _ & _ & _ & _ & -> & Ffs & _).
  rewrite X in Xf. injection Xf as <-. rewrite Same in *.
  split; [done|]. rewrite Ffs. split; [apply lookup_delete_eq|].
  intros q Hq. by rewrite lookup_delete_ne, lookup_insert_ne.
Qed.

(** ** A completed run, end to end *)

Section CompletedRun.
Context `{Collaborators}.

Lemma extract_task_staged (ds : string) (w w' : World) (m : nat) :
  run_task extract_task ds w = (TaskSuccess m, w') →
  ∃ c now table,
    clock w ≤ now ≤ clock w + 2 * retry_delay default_args ∧
    table_at c now = Some table ∧
    fs w' = <[csv_path ds := to_csv (Sql.query now table)]> (fs w).
Proof.
  intros A.
  apply run_task_success_inv in A
    as (k & wl & v & w1 & Hk & _ & _ & _ & Hclock & _ & _ & _ & Tries & C & ->).
  apply failed_extract_tries in Tries as (Hfs & _).
  unfold python_callable, mbind, M_bind, mret, M_ret in C.
  destruct (extract_timescale_data _ _) as [[e|p] w2] eqn:E; [done|].
  injection C as <- <-.
  apply extract_inv in E as (_ & _ & _ & _ & _ & _ & c & table & T & F).
  simpl in *. exists c, (clock wl), table.
  split; [|split; [done|]].
  - rewrite Hclock. cbv [retry_delay default_args Sql.minute Sql.second]. lia.
  - rewrite F. destruct Hfs as [->|(junk & ->)]; [done|]. apply insert_insert_eq.
Qed.

(** Attempts of the Converter that raised have left the files alone, or a
    truncated Parquet file at the path the next attempt writes again. *)
Lemma failed_convert_tries_fs (ds f : string) (k n : nat) (w wl : World) :
  failed_tries convert_task ds k n w wl →
  xcom w !! "extract_timescale_data" = Some (XStr f) →
  fs wl = fs w ∨ ∃ junk, fs wl = <[parquet_path f := junk]> (fs w).
Proof.
  induction 1 as [n w|k n w e w1 w' C F IH]; intros X; [by left|].
  unfold python_callable, mbind, M_bind, mret, M_ret in C.
  destruct (convert_csv_to_parquet _ _) as [[e'|p] w2] eqn:E; [|done].
  injection C as <- <-.
  apply convert_inv in E as (_ & Ex & _ & _ & evs & _ & _ & _ & R).
  simpl in *.
  assert (xcom w2 !! "extract_timescale_data" = Some (XStr f)) as X1.
  { by rewrite Ex, lookup_delete_ne. }
  destruct (IH X1) as [->|[junk ->]]; destruct R as [->|(f' & junk' & Xf & ->)];
    try rewrite lookup_delete_ne, X in Xf by done; simplify_eq; eauto.
  right. exists junk. by rewrite insert_insert_eq.
Qed.

Lemma convert_task_staged (ds f text : string) (w w' : World) (m : nat) :
  run_task convert_task ds w = (TaskSuccess m, w') →
  xcom w !! "extract_timescale_data" = Some (XStr f) →
  parquet_path f ≠ f →
  fs w !! f = Some text →
  ∃ df table bytes,
    read_csv text = Some df ∧ from_pandas df = Some table ∧
    write_table table = Written bytes ∧
    fs w' = delete f (<[parquet_path f := bytes]> (fs w)).
Proof.
  intros A X Fresh F.
  unfold run_task in A.
  apply attempts_inv in A as (k & wl & v & w1 & _ & Tries & C & _ & ->).
  pose proof (failed_convert_tries_fs ds f _ _ _ _ Tries X) as Hfs.
  apply failed_tries_inv in Tries as (_ & _ & _ & Hx & _).
  unfold python_callable, mbind, M_bind, mret, M_ret in C.
  destruct (convert_csv_to_parquet _ _) as [[e|p] w2] eqn:E; [done|].
  injection C as <- <-.
  apply convert_inv in E as (_ & _ & _ & _ & evs & _ & _ & R).
  destruct R as (f' & text' & df & table & bytes & Xf & Ff & Rd & Fp & Wr & -> & Ffs & _).
  simpl in *. rewrite lookup_delete_ne, Hx, X in Xf by done. injection Xf as <-.
  assert (text' = text) as ->.
  { destruct Hfs as [E|[junk E]]; rewrite E in Ff.
    - congruence.
    - rewrite lookup_insert_ne in Ff by done. congruence. }
  exists df, table, bytes. repeat split; try done.
  rewrite Ffs. destruct Hfs as [->|[junk ->]]; [done|]. by rewrite insert_insert_eq.
Qed.

(** X10.  After a completed run neither the CSV nor the Parquet file of the
    run is on disk and every other file is as before; the bucket has gained,
    under the key of the run, the Parquet rendering of the CSV of the query
    result, the query having run at most two backoffs after the start. *)
Theorem completed_run_end_to_end (ds : string) (w w' : World) :
  run_dag ds w = (Completed, w') →
  parquet_path (csv_path ds) ≠ csv_path ds ∧
  fs w' !! csv_path ds = None ∧
  fs w' !! parquet_path (csv_path ds) = None ∧
  (∀ p, p ≠ csv_path ds → p ≠ parquet_path (csv_path ds) → fs w' !! p = fs w !! p) ∧
  ∃ c now table df arrow bytes b,
    clock w ≤ now ≤ clock w + 2 * (5 * Sql.minute) ∧
    table_at c now = Some table ∧
    read_csv (to_csv (Sql.query now table)) = Some df ∧
    from_pandas df = Some arrow ∧
    write_table arrow = Written bytes ∧
    env w !! "AWS_S3_BUCKET" = Some b ∧
    s3 w' = <[(b, run_key ds) := bytes]> (s3 w).
Proof.
  unfold run_dag, dag_tasks, run_chain.
  destruct (run_task extract_task ds w) as [[m1|e1 m1] w1] eqn:E1; [|done].
  pose proof (extract_task_staged _ _ _ _ E1) as (c & now & table & Hnow & T & F1).
  apply extract_task_success in E1 as (Henv1 & Hs31 & Hx1 & X1).
  destruct (run_task convert_task ds w1) as [[m2|e2 m2] w2] eqn:E2; [|done].
  pose proof (parquet_path_fresh ds) as Fresh.
  assert (fs w1 !! csv_path ds = Some (to_csv (Sql.query now table))) as Fcsv.
  { rewrite F1. apply lookup_insert_eq. }
  pose proof (convert_task_staged _ _ _ _ _ _ E2 X1 Fresh Fcsv)
    as (df & arrow & bytes & Rd & Fp & Wr & F2).
  apply (convert_task_success ds (csv_path ds)) in E2 as (Henv2 & Hs32 & Hx2 & X2); [|done].
  destruct (run_task upload_task ds w2) as [[m3|e3 m3] w3] eqn:E3; [|done].
  apply upload_task_success in E3
    as (pf & b & bytes' & k & wl & X & _ & _ & B & _ & Fpq & _ & _ & X3 & Hs33 & F3 & _).
  rewrite X2 in X. injection X as <-.
  assert (bytes' = bytes) as ->.
  { rewrite F2, lookup_delete_ne, lookup_insert_eq in Fpq by done. congruence. }
  destruct (notify_task_runs ds w3 _ X3) as (w4 & -> & F4 & _ & Hs34 & _).
  intros [= <-].
  split; [done|]. rewrite F4, F3, F2, F1. repeat split.
  - rewrite lookup_delete_ne by done. apply lookup_delete_eq.
  - apply lookup_delete_eq.
  - intros p Hc Hp. by rewrite !lookup_delete_ne, !lookup_insert_ne.
  - exists c, now, table, df, arrow, bytes, b.
    cbv [retry_delay default_args] in Hnow. repeat split; try done; try apply Hnow.
    + congruence.
    + rewrite Hs34, Hs33. unfold run_key. congruence.
Qed.

End CompletedRun.

Lemma query_rows_within_bucket_witness :
  ∃ row,
    row ∈ Sql.query 0 Demo.table ∧
    hour_bucket row mod Sql.hour = 0 ∧
    hour_bucket row ≤ min_timestamp row ∧
    max_timestamp row < hour_bucket row + Sql.hour.
Proof.
  destruct (Sql.query 0 Demo.table) as [|row rest] eqn:E; [vm_compute in E; discriminate|].
  assert (row ∈ Sql.query 0 Demo.table) as Hin by (rewrite E; left).
  exists row. rewrite <- E. split; [exact Hin|].
  destruct (query_rows_within_bucket 0 Demo.table row Hin) as (A & B & _ & C & _).
  by repeat split.
Defined.

Lemma extractor_failure_modes_witness :
  (extract_timescale_data (H := Demo.libs_csv_disk_full) Demo.ds Demo.fresh).1 = inl OSError ∧
  ∃ junk,
    fs (extract_timescale_data (H := Demo.libs_csv_disk_full) Demo.ds Demo.fresh).2
    = <[csv_path Demo.ds := junk]> (fs Demo.fresh).
Proof.
  assert ((extract_timescale_data (H := Demo.libs_csv_disk_full) Demo.ds Demo.fresh).1
          = inl OSError) as E by (vm_compute; reflexivity).
  split; [exact E|].
  destruct (extractor_failure_modes (H := Demo.libs_csv_disk_full) _ _ _ _ (pair_of_fst _ _ E))
    as [(s & _ & _ & Bad & _)|[(p & _ & _ & Bad & _)|(p & rows & left & _ & _ & D & _ & R)]];
    [discriminate Bad|discriminate Bad|].
  injection D as <-. destruct R as [R _]. by exists "MUM_001,".
Defined.

Lemma extractor_recovers_on_retry_witness :
  ∃ w',
    run_task (H := Demo.libs_db_flaky) extract_task Demo.ds Demo.fresh = (TaskSuccess 2, w') ∧
    clock w' = clock Demo.fresh + 5 * Sql.minute.
Proof.
  destruct (extractor_recovers_on_retry (H := Demo.libs_db_flaky) Demo.ds Demo.fresh
              5432 Demo.table) as (w' & R & Hclock & _); [reflexivity ..|].
  by exists w'.
Defined.

(** X7.  A profile boto3 does not know stops the Uploader at the session: it
    raises [ProfileNotFound] for the profile of [AWS_PROFILE], ['qa-in'] when
    unset, having started no transfer and removed nothing. *)
Theorem uploader_unknown_profile `{Collaborators} (ds pf bytes b : string) (w w' : World)
    (r : Exn + UploadDetails) :
  staged "convert_to_parquet" w pf bytes →
  env w !! "AWS_S3_BUCKET" = Some b → b ≠ "" →
  profile_ok (default "qa-in" (env w !! "AWS_PROFILE")) = false →
  upload_to_s3 ds w = (r, w') →
  r = inl (ProfileNotFound (default "qa-in" (env w !! "AWS_PROFILE"))) ∧
  fs w' = fs w ∧ s3 w' = s3 w ∧
  emitted w w'
    [Log UploadStarting; BotoSession (default "qa-in" (env w !! "AWS_PROFILE"));
     Log (UploadError (ProfileNotFound (default "qa-in" (env w !! "AWS_PROFILE"))))].
Proof.
  intros (X & Hpf & F) B Hb P. unfold upload_to_s3. unfold_m. simpl.
  rewrite X. destruct pf; [done|]. destruct b; [done|]. simpl.
  repeat (rewrite ?F, ?B, ?P; simpl).
  intros [= <- <-]. repeat split. unfold emitted. simpl. by rewrite <- !app_assoc.
Qed.

Lemma uploader_unknown_profile_witness :
  (upload_to_s3 (H := Demo.libs_no_profile) Demo.ds Demo.converted).1
  = inl (ProfileNotFound "qa-in") ∧
  fs (upload_to_s3 (H := Demo.libs_no_profile) Demo.ds Demo.converted).2 = fs Demo.converted.
Proof.
  assert (staged "convert_to_parquet" Demo.converted
            "/tmp/timescale_data_2025-03-07.parquet" "PAR1MUM_001,MUM_002,MUM_001") as St.
  { split; [vm_compute; reflexivity|]. split; [discriminate|vm_compute; reflexivity]. }
  assert (env Demo.converted !! "AWS_S3_BUCKET" = Some "lake") as B by (vm_compute; reflexivity).
  destruct (uploader_unknown_profile (H := Demo.libs_no_profile) Demo.ds _ _ _
              Demo.converted _ _ St B ltac:(discriminate) eq_refl
              (surjective_pairing _)) as (R & Hfs & _).
  split; [|exact Hfs]. rewrite R. vm_compute. reflexivity.
Defined.

Lemma notifier_only_logs_witness :
  (notify_completion Demo.ds Demo.fresh).1 = inl TypeError ∧
  s3 (notify_completion Demo.ds Demo.fresh).2 = s3 Demo.fresh.
Proof.
  assert ((notify_completion Demo.ds Demo.fresh).1 = inl TypeError)
    as N by (vm_compute; reflexivity).
  split; [exact N|].
  apply (notifier_only_logs _ _ _ _ (pair_of_fst _ _ N)).
Defined.

Lemma converter_without_csv_suffix_witness :
  parquet_path "/tmp/rows" = "/tmp/rows" ∧
  (convert_csv_to_parquet (H := Demo.libs) Demo.ds Demo.odd_name).1 = inr "/tmp/rows" ∧
  fs (convert_csv_to_parquet (H := Demo.libs) Demo.ds Demo.odd_name).2 !! "/tmp/rows" = None.
Proof.
  assert (parquet_path "/tmp/rows" = "/tmp/rows") as Same by reflexivity.
  assert ((convert_csv_to_parquet (H := Demo.libs) Demo.ds Demo.odd_name).1
          = inr "/tmp/rows") as C by (vm_compute; reflexivity).
  split; [exact Same|]. split; [exact C|].
  apply (converter_without_csv_suffix (H := Demo.libs) Demo.ds "/tmp/rows" _ Demo.odd_name _
           ltac:(vm_compute; reflexivity) Same (pair_of_fst _ _ C)).
Defined.

Lemma completed_run_end_to_end_witness :
  (run_dag (H := Demo.libs) Demo.ds Demo.fresh).1 = Completed ∧
  fs (run_dag (H := Demo.libs) Demo.ds Demo.fresh).2 !! csv_path Demo.ds = None ∧
  fs (run_dag (H := Demo.libs) Demo.ds Demo.fresh).2 !! parquet_path (csv_path Demo.ds) = None.
Proof.
  assert ((run_dag (H := Demo.libs) Demo.ds Demo.fresh).1 = Completed)
    as R by (vm_compute; reflexivity).
  split; [exact R|].
  destruct (completed_run_end_to_end (H := Demo.libs) Demo.ds Demo.fresh _ (pair_of_fst _ _ R))
    as (_ & Hcsv & Hpq & _).
  by split.
Defined.
